(** * CodeFix-AI-Terminal: the multi-language runner ([backend/app/runner.py])
      and its HTTP caller ([backend/app/api.py]), embedded and verified.

    The runner talks to the outside world through [shutil.which],
    [subprocess.run], [os.name] and [pathlib.Path].  These are gathered in
    two interfaces ([Platform], [Pathlib]) over an abstract world; every
    process creation is recorded in a log so that statements such as
    "no process is spawned" can be made.  Python exceptions are explicit:
    a computation returns either a raised exception or a value. *)

From Stdlib Require Import String Ascii List ZArith Bool Lia.
From Stdlib Require Import DecimalString.
Import ListNotations.
Local Open Scope string_scope.
Local Open Scope Z_scope.

(** ** Python string primitives used by the sources *)

(** A string is the sequence of its code points; the model has the code
    points U+0000 to U+00FF, one [ascii] each.  On these, white space and
    case are those of [str.isspace] and [str.lower]. *)

Module PyStr.

(** [sep.join(parts)] *)
Fixpoint join (sep : string) (parts : list string) : string :=
  match parts with
  | [] => ""
  | [x] => x
  | x :: rest => x ++ sep ++ join sep rest
  end.

(** [str.isspace] on one character: TAB..CR, FS..US, SPACE, NEXT LINE
    (U+0085) and NO-BREAK SPACE (U+00A0). *)
Definition isspace (c : ascii) : bool :=
  let n := nat_of_ascii c in
  ((9 <=? n) && (n <=? 13) || (28 <=? n) && (n <=? 32)
   || (n =? 133) || (n =? 160))%nat.

Fixpoint lstrip (s : string) : string :=
  match s with
  | String c rest => if isspace c then lstrip rest else s
  | EmptyString => EmptyString
  end.

(** Drops trailing white space: a character is kept when something
    survives after it or when it is not white space itself. *)
Fixpoint rstrip (s : string) : string :=
  match s with
  | EmptyString => EmptyString
  | String c rest =>
      match rstrip rest with
      | EmptyString => if isspace c then EmptyString else String c EmptyString
      | kept => String c kept
      end
  end.

(** [s.strip()] *)
Definition strip (s : string) : string := rstrip (lstrip s).

(** [str.lower] on one character: A..Z, and the capital letters U+00C0 to
    U+00DE but for the multiplication sign U+00D7, move up by 32. *)
Definition lower_char (c : ascii) : ascii :=
  let n := nat_of_ascii c in
  if ((65 <=? n) && (n <=? 90)
      || (192 <=? n) && (n <=? 222) && negb (n =? 215))%nat
  then ascii_of_nat (n + 32) else c.

(** [s.lower()] *)
Fixpoint lower (s : string) : string :=
  match s with
  | EmptyString => EmptyString
  | String c rest => String (lower_char c) (lower rest)
  end.

(** [x in (a, b, ...)] for a tuple of strings *)
Definition mem (x : string) (xs : list string) : bool :=
  existsb (String.eqb x) xs.

(** [s or ""] for an optional string *)
Definition or_empty (s : option string) : string :=
  match s with Some v => v | None => "" end.

(** Truth value of an optional string: [None] and [""] are falsy. *)
Definition truthy (s : option string) : bool :=
  match s with Some (String _ _) => true | _ => false end.

(** [a or b] on optional strings *)
Definition or_else (a b : option string) : option string :=
  if truthy a then a else b.

(** [str(n)] / [f"{n}"] for an integer *)
Definition of_Z (n : Z) : string := NilZero.string_of_int (Z.to_int n).

(** [f"{x}"] for a value that is a string or [None] *)
Definition format_opt (s : option string) : string :=
  match s with Some v => v | None => "None" end.

End PyStr.

(** ** [shlex.quote] and [shlex.split] (POSIX mode, no comments) *)

Module shlex.

Definition squote : ascii := "039"%char.
Definition dquote : ascii := "034"%char.
Definition backslash : ascii := "092"%char.

(** Characters outside [[^\w@%+=:,./-]] (ASCII) need no quoting. *)
Definition is_safe (c : ascii) : bool :=
  let n := nat_of_ascii c in
  ((48 <=? n) && (n <=? 57) || (65 <=? n) && (n <=? 90)
   || (97 <=? n) && (n <=? 122))%nat
  || existsb (Ascii.eqb c)
       ["_"; "@"; "%"; "+"; "="; ":"; ","; "."; "/"; "-"]%char.

Fixpoint all_safe (s : string) : bool :=
  match s with
  | EmptyString => true
  | String c rest => is_safe c && all_safe rest
  end.

(** [s.replace("'", "'\"'\"'")] *)
Fixpoint escape_squotes (s : string) : string :=
  match s with
  | EmptyString => EmptyString
  | String c rest =>
      if Ascii.eqb c squote
      then String squote (String dquote (String squote (String dquote
             (String squote (escape_squotes rest)))))
      else String c (escape_squotes rest)
  end.

Definition quote (s : string) : string :=
  match s with
  | EmptyString => "''"
  | _ => if all_safe s then s
         else String squote (escape_squotes s ++ String squote EmptyString)
  end.

(** Lexer state of [shlex.read_token]: [' '], ['a'], a quote character,
    or the escape character together with the state to return to. *)
Inductive lexstate :=
| Blank
| Word
| Quoted (q : ascii)
| Escaped (escapedstate : lexstate).

Definition is_whitespace (c : ascii) : bool :=
  existsb (Ascii.eqb c) [" "; "009"; "013"; "010"]%char.

Definition is_quote (c : ascii) : bool :=
  Ascii.eqb c squote || Ascii.eqb c dquote.

Definition is_quoted_state (st : lexstate) : option ascii :=
  match st with Quoted q => Some q | _ => None end.

(** A finished token is emitted when it is non-empty or was quoted. *)
Definition emit (token : string) (quoted : bool) (acc : list string)
  : list string :=
  match token with
  | EmptyString => if quoted then token :: acc else acc
  | _ => token :: acc
  end.

Definition snoc (s : string) (c : ascii) : string :=
  s ++ String c EmptyString.

(** All tokens of the input, or the message of the [ValueError] raised.
    [acc] holds the tokens read so far, most recent first.  [quoted] is
    set on entering a quote; the library sets it on the first character
    read inside the quote, and raises if there is none. *)
Fixpoint lex (input : string) (st : lexstate) (token : string)
         (quoted : bool) (acc : list string) : string + list string :=
  match input with
  | EmptyString =>
      match st with
      | Blank => inr (rev acc)
      | Word => inr (rev (emit token quoted acc))
      | Quoted _ => inl "No closing quotation"
      | Escaped _ => inl "No escaped character"
      end
  | String c rest =>
      match st with
      | Blank =>
          if is_whitespace c then lex rest Blank token quoted acc
          else if Ascii.eqb c backslash
               then lex rest (Escaped Word) token quoted acc
          else if is_quote c then lex rest (Quoted c) token true acc
          else lex rest Word (String c EmptyString) quoted acc
      | Word =>
          if is_whitespace c
          then lex rest Blank EmptyString false (emit token quoted acc)
          else if is_quote c then lex rest (Quoted c) token true acc
          else if Ascii.eqb c backslash
               then lex rest (Escaped Word) token quoted acc
          else lex rest Word (snoc token c) quoted acc
      | Quoted q =>
          if Ascii.eqb c q then lex rest Word token quoted acc
          else if Ascii.eqb c backslash && Ascii.eqb q dquote
               then lex rest (Escaped st) token quoted acc
          else lex rest st (snoc token c) quoted acc
      | Escaped back =>
          let kept :=
            match is_quoted_state back with
            | Some q =>
                if negb (Ascii.eqb c backslash) && negb (Ascii.eqb c q)
                then snoc token backslash else token
            | None => token
            end in
          lex rest back (snoc kept c) quoted acc
      end
  end.

(** [shlex.split(s)] *)
Definition split (s : string) : string + list string :=
  lex s Blank EmptyString false [].

End shlex.

(** ** Exceptions, processes and the host platform *)

(** The Python exceptions that can reach the runner.  All but
    [KeyboardInterrupt] are subclasses of [Exception]; the payload is
    [str(e)]. *)
Inductive exn :=
| TimeoutExpired (e : string)
| FileNotFoundError (e : string)
| PermissionError (e : string)
| OSError (e : string)
| ValueError (e : string)
| OtherException (e : string)
| KeyboardInterrupt.

Definition is_Exception (e : exn) : bool :=
  match e with KeyboardInterrupt => false | _ => true end.

(** [str(e)] *)
Definition exn_str (e : exn) : string :=
  match e with
  | TimeoutExpired m | FileNotFoundError m | PermissionError m
  | OSError m | ValueError m | OtherException m => m
  | KeyboardInterrupt => ""
  end.

(** [CmdType = Union[str, List[str]]] *)
Inductive CmdType :=
| CmdList (argv : list string)
| CmdStr (line : string).

(** The arguments of one [subprocess.run(args, capture_output=True,
    text=True, cwd=..., timeout=..., shell=...)] call. *)
Record Popen := mkPopen {
  popen_args : CmdType;
  popen_cwd : option string;
  popen_timeout : Z;
  popen_shell : bool
}.

(** [subprocess.CompletedProcess] *)
Record CompletedProcess := mkCompleted {
  proc_stdout : option string;
  proc_stderr : option string;
  proc_returncode : Z
}.

(** [(stdout, stderr, returncode, executed_cmd)] *)
Record Result := mkResult {
  stdout : string;
  stderr : string;
  returncode : Z;
  executed_cmd : string
}.

(** What the runner needs from the machine it runs on. *)
Class Platform := {
  World : Type;
  os_name : string;
  shutil_which : string -> World -> option string;
  subprocess_run : Popen -> World -> (exn + CompletedProcess) * World
}.

(** The [pathlib.Path] operations the runner uses, on path strings:
    [str(Path(s))], [str(Path(s).parent)], [Path(s).stem],
    [Path(s).suffix] and [str(Path(a) / b)]. *)
Class Pathlib := {
  Path_str : string -> string;
  Path_parent : string -> string;
  Path_stem : string -> string;
  Path_suffix : string -> string;
  Path_join : string -> string -> string
}.

Section Runner.

Context {platform : Platform} {pathlib : Pathlib}.

(** The world together with the log of processes created so far. *)
Record Sys := mkSys {
  world : World;
  spawned : list Popen
}.

(** Computations: read and change the system, then raise or return. *)
Definition M (A : Type) : Type := Sys -> (exn + A) * Sys.

Definition ret {A} (a : A) : M A := fun s => (inr a, s).

Definition bind {A B} (m : M A) (k : A -> M B) : M B :=
  fun s =>
    match m s with
    | (inr a, s') => k a s'
    | (inl e, s') => (inl e, s')
    end.

(** [shutil.which(name)] *)
Definition which (name : string) : M (option string) :=
  fun s => (inr (shutil_which name (world s)), s).

(** One [subprocess.run] call: the request is logged, the world moves
    on, and the call returns a completed process or raises. *)
Definition subprocess_run_logged (req : Popen) : M CompletedProcess :=
  fun s =>
    let '(r, w) := subprocess_run req (world s) in
    (r, mkSys w (spawned s ++ [req])).

End Runner.

Notation "x <- m ;; k" := (bind m (fun x => k))
  (at level 61, m at next level, right associativity).

Section RunnerCode.

Context {platform : Platform} {pathlib : Pathlib}.

(** The [try] block of [run_command]: the outcome of the block and the
    value of the local [executed] when the block was left. *)
Definition run_command_try (cmd : CmdType) (cwd : option string)
           (timeout : Z) (s : Sys) : (exn + CompletedProcess) * string * Sys :=
  match cmd with
  | CmdList argv =>
      let executed := PyStr.join " " (map shlex.quote argv) in
      let '(r, s') :=
        subprocess_run_logged (mkPopen cmd cwd timeout false) s in
      (r, executed, s')
  | CmdStr line =>
      let executed := line in
      if (os_name =? "nt")%string then
        let '(r, s') :=
          subprocess_run_logged (mkPopen cmd cwd timeout true) s in
        (r, executed, s')
      else
        match shlex.split line with
        | inl msg => (inl (ValueError msg), executed, s)
        | inr args =>
            let executed := PyStr.join " " (map shlex.quote args) in
            let '(r, s') :=
              subprocess_run_logged
                (mkPopen (CmdList args) cwd timeout false) s in
            (r, executed, s')
        end
  end.

Definition run_command (cmd : CmdType) (cwd : option string)
           (timeout : Z) : M Result :=
  fun s =>
    let '(r, executed, s') := run_command_try cmd cwd timeout s in
    match r with
    | inr proc =>
        (inr (mkResult (PyStr.or_empty (proc_stdout proc))
                       (PyStr.or_empty (proc_stderr proc))
                       (proc_returncode proc) executed), s')
    | inl (TimeoutExpired _) =>
        (inr (mkResult ""
                ("TimeoutExpired: process exceeded "
                   ++ PyStr.of_Z timeout ++ " seconds")
                124 executed), s')
    | inl (FileNotFoundError e) =>
        (inr (mkResult ""
                ("RunnerError: [WinError 2] The system cannot find the file specified: " ++ e)
                125 executed), s')
    | inl e =>
        if is_Exception e
        then (inr (mkResult "" ("RunnerError: " ++ exn_str e) 125 executed), s')
        else (inl e, s')
    end.

(** [is_executable_available(name)] *)
Definition is_executable_available (name : string) : M bool :=
  found <- which name ;;
  ret (match found with Some _ => true | None => false end).

Definition _make_executable_path (cwd name : string) : string :=
  if (os_name =? "nt")%string then Path_join cwd (name ++ ".exe")
  else Path_join cwd name.

(** The compiler lookup of the C / C++ branch: [g++] then [clang++] for
    C++, [gcc] then [clang] for C; [None] when neither is on PATH. *)
Definition select_compiler (is_cpp : bool) : M (option string) :=
  if is_cpp then
    gxx <- is_executable_available "g++" ;;
    if gxx then ret (Some "g++")
    else
      clangxx <- is_executable_available "clang++" ;;
      if clangxx then ret (Some "clang++") else ret None
  else
    gcc <- is_executable_available "gcc" ;;
    if gcc then ret (Some "gcc")
    else
      clang <- is_executable_available "clang" ;;
      if clang then ret (Some "clang") else ret None.

(** [shutil.which("python") or shutil.which("python3")] *)
Definition which_python : M (option string) :=
  first <- which "python" ;;
  if PyStr.truthy first then ret first else which "python3".

Definition run_linter_for_language (file_path : string)
           (language : option string) (timeout : Z) : M Result :=
  let p := file_path in
  let cwd := Path_parent p in
  let lang := PyStr.lower (PyStr.strip (PyStr.or_empty language)) in
  (* ---------- Python ---------- *)
  if PyStr.mem lang ["python"; "py"] then
    python_bin <- which_python ;;
    if PyStr.truthy python_bin then
      let cmd := [PyStr.or_empty python_bin; Path_str p] in
      run_command (CmdList cmd) (Some cwd) timeout
    else
      pylint <- is_executable_available "pylint" ;;
      if pylint then
        let cmd := ["pylint"; Path_str p] in
        run_command (CmdList cmd) (Some cwd) timeout
      else
        ret (mkResult "" "No python interpreter or pylint found on PATH." 125 "")
  (* ---------- JavaScript / Node ---------- *)
  else if PyStr.mem lang ["javascript"; "js"; "node"] then
    node <- is_executable_available "node" ;;
    if node then
      let cmd := ["node"; Path_str p] in
      run_command (CmdList cmd) (Some cwd) timeout
    else
      eslint <- is_executable_available "eslint" ;;
      if eslint then
        let cmd := ["eslint"; Path_str p] in
        run_command (CmdList cmd) (Some cwd) timeout
      else
        ret (mkResult "" "No node or eslint found on PATH." 125 "")
  (* ---------- Java ---------- *)
  else if (lang =? "java")%string then
    javac <- is_executable_available "javac" ;;
    if negb javac then
      ret (mkResult ""
             "No javac found on PATH. Please install JDK and add javac to PATH."
             125 "")
    else
      let compile_cmd := ["javac"; Path_str p] in
      rc <- run_command (CmdList compile_cmd) (Some cwd) timeout ;;
      if negb (returncode rc =? 0) then ret rc
      else
        let class_name := Path_stem p in
        java <- is_executable_available "java" ;;
        if negb java then
          ret (mkResult (stdout rc)
                 "Compiled but `java` runtime not found on PATH."
                 125 (executed_cmd rc))
        else
          let run_cmd := ["java"; "-cp"; cwd; class_name] in
          rr <- run_command (CmdList run_cmd) (Some cwd) timeout ;;
          let executed_full := executed_cmd rc ++ " ; " ++ executed_cmd rr in
          ret (mkResult (stdout rr) (stderr rr) (returncode rr) executed_full)
  (* ---------- C / C++ ---------- *)
  else if PyStr.mem lang ["c"; "cpp"; "c++"] then
    let is_cpp := PyStr.mem lang ["cpp"; "c++"] in
    compiler <- select_compiler is_cpp ;;
    if negb (PyStr.truthy compiler) then
      ret (mkResult ""
             "No C/C++ compiler found on PATH. Install gcc/g++ or clang."
             125 "")
    else
      let compiler := PyStr.or_empty compiler in
      let exe_name := "a_out_exec" in
      let exe_path := _make_executable_path cwd exe_name in
      let compile_cmd := [compiler; Path_str p; "-o"; exe_path] in
      let compile_cmd :=
        if is_cpp && PyStr.mem compiler ["g++"; "clang++"]
        then (compile_cmd ++ ["-std=c++17"])%list else compile_cmd in
      rc <- run_command (CmdList compile_cmd) (Some cwd) timeout ;;
      if negb (returncode rc =? 0) then ret rc
      else
        let run_cmd := [exe_path] in
        rr <- run_command (CmdList run_cmd) (Some cwd) timeout ;;
        let executed_full := executed_cmd rc ++ " ; " ++ executed_cmd rr in
        ret (mkResult (stdout rr) (stderr rr) (returncode rr) executed_full)
  (* ---------- Fallback: try to run by file extension ---------- *)
  else
    let no_runner :=
      mkResult ""
        ("No runner available for language '"
           ++ PyStr.format_opt language ++ "'.")
        125 "" in
    if (Path_suffix p =? ".py")%string then
      python_bin <- which_python ;;
      if PyStr.truthy python_bin then
        let cmd := [PyStr.or_empty python_bin; Path_str p] in
        run_command (CmdList cmd) (Some cwd) timeout
      else ret no_runner
    else ret no_runner.

End RunnerCode.

(** ** The HTTP caller ([api.py]) *)

(** JSON values that occur in a request body. *)
Inductive json :=
| JNull
| JString (s : string)
| JNumber (n : Z).

(** A JSON object as its key/value pairs in document order; a repeated key
    takes its last value. *)
Fixpoint json_get (key : string) (body : list (string * json)) : option json :=
  match body with
  | [] => None
  | (k, v) :: rest =>
      match json_get key rest with
      | Some later => Some later
      | None => if (k =? key)%string then Some v else None
      end
  end.

(** [class RunRequest(BaseModel)] *)
Record RunRequest := mkRunRequest {
  language : string;
  filename : option string;
  code : string
}.

(** Parsing of a request body against [RunRequest]: the declared fields
    are read, [filename] may be absent or null, every other key of the
    body is ignored.  [None] stands for a body that is rejected before
    [run_code] is entered. *)
Definition RunRequest_validate (body : list (string * json)) : option RunRequest :=
  match json_get "language" body, json_get "code" body with
  | Some (JString l), Some (JString c) =>
      match json_get "filename" body with
      | None | Some JNull => Some (mkRunRequest l None c)
      | Some (JString f) => Some (mkRunRequest l (Some f) c)
      | Some (JNumber _) => None
      end
  | _, _ => None
  end.

(** The dictionary returned by [run_code]. *)
Record RunResponse := mkRunResponse {
  resp_stdout : string;
  resp_stderr : string;
  resp_rc : Z;
  resp_executed_cmd : string;
  resp_used_filename : string
}.

(** File-system services used by [run_code]: [os.path.join], entering and
    leaving a [tempfile.TemporaryDirectory()], and writing a text file. *)
Class Filesystem {platform : Platform} := {
  os_path_join : string -> string -> string;
  TemporaryDirectory_enter : World -> (exn + string) * World;
  TemporaryDirectory_exit : string -> World -> (exn + unit) * World;
  write_text : string -> string -> World -> (exn + unit) * World
}.

(** The default of the [timeout] parameter of [run_linter_for_language]
    (and of [run_command]). *)
Definition default_timeout : Z := 30.

Section Api.

Context {platform : Platform} {pathlib : Pathlib} {fs : Filesystem}.

(** [with tempfile.TemporaryDirectory() as td: body]: the directory is
    removed on every way out of the body. *)
Definition with_TemporaryDirectory {A} (body : string -> M A) : M A :=
  fun s =>
    match TemporaryDirectory_enter (world s) with
    | (inl e, w) => (inl e, mkSys w (spawned s))
    | (inr td, w) =>
        let '(r, s1) := body td (mkSys w (spawned s)) in
        match TemporaryDirectory_exit td (world s1) with
        | (inl e, w') => (inl e, mkSys w' (spawned s1))
        | (inr _, w') => (r, mkSys w' (spawned s1))
        end
    end.

(** [with open(file_path, "w", encoding="utf-8") as f: f.write(text)] *)
Definition write_file (file_path text : string) : M unit :=
  fun s =>
    let '(r, w) := write_text file_path text (world s) in
    (r, mkSys w (spawned s)).

(** The extension table of [run_code]. *)
Definition ext_table : list (string * string) :=
  [("python", ".py"); ("javascript", ".js"); ("java", ".java");
   ("c", ".c"); ("cpp", ".cpp"); ("c++", ".cpp")].

(** [table.get(key, default)] *)
Fixpoint dict_get (table : list (string * string)) (key default : string)
  : string :=
  match table with
  | [] => default
  | (k, v) :: rest => if (k =? key)%string then v else dict_get rest key default
  end.

Definition run_code (req : RunRequest) : M RunResponse :=
  let lang := PyStr.lower (language req) in
  let ext := dict_get ext_table lang ".txt" in
  with_TemporaryDirectory (fun td =>
    let name :=
      PyStr.or_empty (PyStr.or_else (filename req) (Some ("main" ++ ext))) in
    let file_path := os_path_join td name in
    _ <- write_file file_path (code req) ;;
    r <- run_linter_for_language file_path (Some lang) default_timeout ;;
    ret (mkRunResponse (stdout r) (stderr r) (returncode r)
           (executed_cmd r) file_path)).

(** [POST /run]: the body is validated, then [run_code] runs. *)
Definition post_run (body : list (string * json)) : M (option RunResponse) :=
  match RunRequest_validate body with
  | None => ret None
  | Some req => resp <- run_code req ;; ret (Some resp)
  end.

End Api.

(** ** A concrete host: [PurePosixPath] and a scripted world *)

Module PurePosixPath.

(** [s.split("/")] *)
Fixpoint split_slash (s : string) (current : string) : list string :=
  match s with
  | EmptyString => [current]
  | String c rest =>
      if Ascii.eqb c "/" then current :: split_slash rest EmptyString
      else split_slash rest (current ++ String c EmptyString)
  end.

(** The root of a path: exactly two leading slashes are kept, one or
    three and more collapse to one. *)
Definition root_of (s : string) : string :=
  match s with
  | String "/" (String "/" (String "/" _)) => "/"
  | String "/" (String "/" _) => "//"
  | String "/" _ => "/"
  | _ => ""
  end.

Definition is_part (x : string) : bool :=
  negb (x =? "")%string && negb (x =? ".")%string.

(** Root and components; empty and [.] components are dropped. *)
Definition parse (s : string) : string * list string :=
  (root_of s, filter is_part (split_slash s EmptyString)).

Definition format (path : string * list string) : string :=
  match path with
  | (EmptyString, []) => "."
  | (root, parts) => root ++ PyStr.join "/" parts
  end.

Definition str (s : string) : string := format (parse s).

Definition parent (s : string) : string :=
  let '(root, parts) := parse s in
  format (root, removelast parts).

Definition name (s : string) : string := last (snd (parse s)) "".

(** Position of the last dot of a name, if any. *)
Fixpoint rfind_dot (s : string) (pos : nat) (found : option nat) : option nat :=
  match s with
  | EmptyString => found
  | String c rest =>
      rfind_dot rest (S pos) (if Ascii.eqb c "." then Some pos else found)
  end.

(** The index where the suffix starts: a dot that is neither the first
    nor the last character of the name. *)
Definition suffix_start (nm : string) : option nat :=
  match rfind_dot nm 0%nat None with
  | Some i =>
      if ((0 <? i) && (i <? String.length nm - 1))%nat then Some i else None
  | None => None
  end.

Definition suffix (s : string) : string :=
  let nm := name s in
  match suffix_start nm with
  | Some i => substring i (String.length nm - i) nm
  | None => ""
  end.

Definition stem (s : string) : string :=
  let nm := name s in
  match suffix_start nm with
  | Some i => substring 0 i nm
  | None => nm
  end.

(** [str(Path(a) / b)]: an absolute [b] replaces [a]. *)
Definition joinpath (a b : string) : string :=
  match root_of b with
  | EmptyString =>
      let '(root, parts) := parse a in
      format (root, (parts ++ snd (parse b))%list)
  | _ => str b
  end.

Definition flavour : Pathlib :=
  {| Path_str := str; Path_parent := parent; Path_stem := stem;
     Path_suffix := suffix; Path_join := joinpath |}.

End PurePosixPath.

(** A world given by the programs on PATH, the outcomes of the processes
    that will be created (in order), the files written, and a counter for
    temporary directories. *)
Record ScriptedWorld := mkScripted {
  on_path : list (string * string);
  outcomes : list (exn + CompletedProcess);
  files : list (string * string);
  tmp_counter : nat
}.

Module Scripted.

Fixpoint lookup (table : list (string * string)) (name : string)
  : option string :=
  match table with
  | [] => None
  | (k, v) :: rest => if (k =? name)%string then Some v else lookup rest name
  end.

Definition which (name : string) (w : ScriptedWorld) : option string :=
  lookup (on_path w) name.

(** The next scripted outcome; a world with no outcome left fails to
    launch. *)
Definition run (req : Popen) (w : ScriptedWorld)
  : (exn + CompletedProcess) * ScriptedWorld :=
  match outcomes w with
  | [] => (inl (FileNotFoundError "[Errno 2] No such file or directory"), w)
  | o :: rest => (o, mkScripted (on_path w) rest (files w) (tmp_counter w))
  end.

Definition posix : Platform :=
  {| World := ScriptedWorld; os_name := "posix";
     shutil_which := which; subprocess_run := run |}.

Definition windows : Platform :=
  {| World := ScriptedWorld; os_name := "nt";
     shutil_which := which; subprocess_run := run |}.

Definition ends_with_slash (a : string) : bool :=
  match get (String.length a - 1) a with
  | Some c => Ascii.eqb c "/"
  | None => false
  end.

(** [posixpath.join(a, b)]: an absolute [b] replaces [a]; a separator is
    put between the two unless [a] is empty or ends with one. *)
Definition path_join (a b : string) : string :=
  match b with
  | String "/" _ => b
  | _ =>
      match a with
      | EmptyString => b
      | _ => if ends_with_slash a then a ++ b else a ++ "/" ++ b
      end
  end.

Definition enter (w : ScriptedWorld) : (exn + string) * ScriptedWorld :=
  (inr ("/tmp/tmp" ++ PyStr.of_Z (Z.of_nat (tmp_counter w))),
   mkScripted (on_path w) (outcomes w) (files w) (S (tmp_counter w))).

Definition leave (td : string) (w : ScriptedWorld)
  : (exn + unit) * ScriptedWorld :=
  (inr tt, mkScripted (on_path w) (outcomes w) [] (tmp_counter w)).

Definition write (path text : string) (w : ScriptedWorld)
  : (exn + unit) * ScriptedWorld :=
  (inr tt, mkScripted (on_path w) (outcomes w)
             ((path, text) :: files w) (tmp_counter w)).

Definition posix_fs : @Filesystem posix :=
  @Build_Filesystem posix path_join enter leave write.

Definition start (w : ScriptedWorld) : @Sys posix := @mkSys posix w [].
Definition start_nt (w : ScriptedWorld) : @Sys windows := @mkSys windows w [].

End Scripted.

(** Worlds used to run the model on concrete requests. *)
Module Demo.

Definition completed (out err : string) (code : Z) : exn + CompletedProcess :=
  inr (mkCompleted (Some out) (Some err) code).

(** [gcc] is installed and rejects the program. *)
Definition gcc_rejects : ScriptedWorld :=
  mkScripted [("gcc", "/usr/bin/gcc")]
    [completed "" "main.c:1:1: error: expected declaration" 1] [] 0.

(** [g++] is installed; the program compiles and exits with 2. *)
Definition gxx_accepts : ScriptedWorld :=
  mkScripted [("g++", "/usr/bin/g++")]
    [completed "" "" 0; completed "hello" "" 2] [] 0.

(** A JDK is installed; the compiler warns, the program prints 2. *)
Definition jdk : ScriptedWorld :=
  mkScripted [("javac", "/usr/bin/javac"); ("java", "/usr/bin/java")]
    [completed "" "Note: Main.java uses unchecked operations." 0;
     completed "2" "" 0] [] 0.

(** [python3] is installed and the program never finishes. *)
Definition python_hangs : ScriptedWorld :=
  mkScripted [("python3", "/usr/bin/python3")]
    [inl (TimeoutExpired "Command timed out")] [] 0.

(** The program to start may not be executed. *)
Definition not_executable : ScriptedWorld :=
  mkScripted []
    [inl (PermissionError "[Errno 13] Permission denied: '/tmp/w/a_out_exec'")]
    [] 0.

(** Nothing is installed. *)
Definition bare : ScriptedWorld := mkScripted [] [] [] 0.

(** Only the linter is installed. *)
Definition pylint_only : ScriptedWorld :=
  mkScripted [("pylint", "/usr/bin/pylint")]
    [completed "Your code has been rated at 10.00/10" "" 0] [] 0.

(** A request body that asks for a timeout of one second. *)
Definition one_second_body : list (string * json) :=
  [("language", JString "python"); ("code", JString "while True: pass");
   ("timeout_seconds", JNumber 1)].

End Demo.

(** ** Vocabulary of the statements *)

Section Vocabulary.

Context {platform : Platform} {pathlib : Pathlib}.

(** The processes a computation creates when started in [s]: what it
    appends to the log. *)
Definition spawned_by {A} (m : M A) (s : Sys) : list Popen :=
  skipn (length (spawned s)) (spawned (snd (m s))).

(** The [subprocess.run] request [run_command] makes for a command, if
    it gets as far as making one. *)
Definition popen_request (cmd : CmdType) (cwd : option string) (timeout : Z)
  : option Popen :=
  match cmd with
  | CmdList _ => Some (mkPopen cmd cwd timeout false)
  | CmdStr line =>
      if (os_name =? "nt")%string then Some (mkPopen cmd cwd timeout true)
      else match shlex.split line with
           | inr args => Some (mkPopen (CmdList args) cwd timeout false)
           | inl _ => None
           end
  end.

(** The reconstruction of a command that [run_command] reports once the
    process has been requested. *)
Definition reconstructed (cmd : CmdType) : string :=
  match cmd with
  | CmdList argv => PyStr.join " " (map shlex.quote argv)
  | CmdStr line =>
      if (os_name =? "nt")%string then line
      else match shlex.split line with
           | inr args => PyStr.join " " (map shlex.quote args)
           | inl _ => line
           end
  end.

(** The message reported for an exception other than a timeout. *)
Definition runner_error_message (e : exn) : string :=
  match e with
  | FileNotFoundError m =>
      "RunnerError: [WinError 2] The system cannot find the file specified: " ++ m
  | _ => "RunnerError: " ++ exn_str e
  end.

Definition timeout_message (timeout : Z) : string :=
  "TimeoutExpired: process exceeded " ++ PyStr.of_Z timeout ++ " seconds".

(** Failures to start the program: every [Exception] that
    [subprocess.run] raises other than the timeout, such as
    [FileNotFoundError], [PermissionError] or another [OSError]. *)
Definition launch_failure (e : exn) : bool :=
  match e with
  | TimeoutExpired _ | KeyboardInterrupt => false
  | _ => true
  end.

(** A request that carries the tokens of [line] and goes through no
    shell. *)
Definition tokenized_without_shell (line : string) (req : Popen) : Prop :=
  popen_shell req = false /\
  match popen_args req with
  | CmdList args => shlex.split line = inr args
  | CmdStr _ => False
  end.

(** The language key the dispatcher branches on. *)
Definition normalize (language : option string) : string :=
  PyStr.lower (PyStr.strip (PyStr.or_empty language)).

Definition compile_and_run_keys : list string := ["java"; "c"; "cpp"; "c++"].

Definition supported_keys : list string :=
  ["python"; "py"; "javascript"; "js"; "node"; "java"; "c"; "cpp"; "c++"].

Definition is_cpp (lang : string) : bool := PyStr.mem lang ["cpp"; "c++"].

(** Every program the branch of a language looks for on PATH: the
    preference list and, for the interpreted languages, the linter. *)
Definition toolchains (lang : string) : list string :=
  if PyStr.mem lang ["python"; "py"] then ["python"; "python3"; "pylint"]
  else if PyStr.mem lang ["javascript"; "js"; "node"] then ["node"; "eslint"]
  else if (lang =? "java")%string then ["javac"; "java"]
  else if is_cpp lang then ["g++"; "clang++"]
  else if (lang =? "c")%string then ["gcc"; "clang"]
  else [].

Definition missing_toolchain_message (lang : string) : string :=
  if PyStr.mem lang ["python"; "py"]
  then "No python interpreter or pylint found on PATH."
  else if PyStr.mem lang ["javascript"; "js"; "node"]
  then "No node or eslint found on PATH."
  else if (lang =? "java")%string
  then "No javac found on PATH. Please install JDK and add javac to PATH."
  else "No C/C++ compiler found on PATH. Install gcc/g++ or clang.".

Definition available (w : World) (name : string) : bool :=
  match shutil_which name w with Some _ => true | None => false end.

(** The compiler the dispatcher settles on in world [w]. *)
Definition compiler_for (w : World) (lang : string) : option string :=
  if (lang =? "java")%string then
    if available w "javac" then Some "javac" else None
  else if is_cpp lang then
    if available w "g++" then Some "g++"
    else if available w "clang++" then Some "clang++" else None
  else
    if available w "gcc" then Some "gcc"
    else if available w "clang" then Some "clang" else None.

Definition exe_path_of (file_path : string) : string :=
  _make_executable_path (Path_parent file_path) "a_out_exec".

(** Argument list of the compile step. *)
Definition compile_cmd_of (lang file_path compiler : string) : list string :=
  if (lang =? "java")%string then ["javac"; Path_str file_path]
  else
    ([compiler; Path_str file_path; "-o"; exe_path_of file_path]
       ++ (if is_cpp lang && PyStr.mem compiler ["g++"; "clang++"]
           then ["-std=c++17"] else []))%list.

(** Argument list of the run step. *)
Definition run_cmd_of (lang file_path : string) : list string :=
  if (lang =? "java")%string
  then ["java"; "-cp"; Path_parent file_path; Path_stem file_path]
  else [exe_path_of file_path].

(** The interpreter found by [which("python") or which("python3")]. *)
Definition python_in (w : World) : option string :=
  PyStr.or_else (shutil_which "python" w) (shutil_which "python3" w).

Definition no_runner (language : option string) : Result :=
  mkResult ""
    ("No runner available for language '" ++ PyStr.format_opt language ++ "'.")
    125 "".

(** [s'] has the log of [s] followed by requests that all satisfy [P]. *)
Definition grows_with (P : Popen -> Prop) (s s' : Sys) : Prop :=
  exists extra, spawned s' = (spawned s ++ extra)%list /\ Forall P extra.

End Vocabulary.

(** The timeout the interface description gives a request: its
    [timeout_seconds] field, 30 when the field is absent. *)
Definition described_timeout (body : list (string * json)) : Z :=
  match json_get "timeout_seconds" body with
  | Some (JNumber n) => n
  | _ => 30
  end.

(** ** Vocabulary of the further statements *)

Section RunnerVocabulary.

Context {platform : Platform} {pathlib : Pathlib}.

(** A request made the way the dispatcher makes them: an argument list,
    no shell, the given working directory and timeout. *)
Definition plain_request (cwd : string) (timeout : Z) (req : Popen) : Prop :=
  popen_shell req = false
  /\ popen_cwd req = Some cwd
  /\ popen_timeout req = timeout
  /\ exists argv, popen_args req = CmdList argv.

(** The most processes a branch of the dispatcher creates. *)
Definition max_processes (lang : string) : nat :=
  if PyStr.mem lang compile_and_run_keys then 2%nat else 1%nat.

(** [s'] has the log of [s] followed by at most [n] requests. *)
Definition grows_by_at_most (n : nat) (s s' : Sys) : Prop :=
  exists extra, spawned s' = (spawned s ++ extra)%list /\ (length extra <= n)%nat.

End RunnerVocabulary.

Section ApiVocabulary.

Context {platform : Platform} {pathlib : Pathlib} {fs : Filesystem}.

(** The file name [run_code] writes to: the request's file name unless it
    is absent or empty, else [main] with the extension of the language. *)
Definition source_name (req : RunRequest) : string :=
  match filename req with
  | Some (String c rest) => String c rest
  | _ => "main" ++ dict_get ext_table (PyStr.lower (language req)) ".txt"
  end.

End ApiVocabulary.

(** A file system on which no file can be written. *)
Module ReadOnly.

Definition write (path text : string) (w : ScriptedWorld)
  : (exn + unit) * ScriptedWorld :=
  (inl (PermissionError "[Errno 13] Permission denied"), w).

Definition posix_fs : @Filesystem Scripted.posix :=
  @Build_Filesystem Scripted.posix Scripted.path_join Scripted.enter
    Scripted.leave write.

End ReadOnly.

(** ** The WebSocket helpers ([ws.py]) *)

Set Warnings "-register-all,-abstract-large-number".

(** Python values: what [json.loads] produces (a dictionary is its items
    in insertion order) and plain instances of a class, given by their
    attributes, as the responses of the AI client are. *)
Inductive pyval :=
| PNone
| PBool (b : bool)
| PInt (n : Z)
| PFloat (repr : string)
| PStr (s : string)
| PList (items : list pyval)
| PDict (items : list (string * pyval))
| PObject (cls : string) (attrs : list (string * pyval)).

(** [json.loads] ([None] when it raises) and [str(x)] for the values that
    are neither dictionaries nor strings. *)
Class Json := {
  json_loads : string -> option pyval;
  py_str : pyval -> string
}.

Module Ws.

(** [d.get(key)] *)
Fixpoint get (d : list (string * pyval)) (key : string) : option pyval :=
  match d with
  | [] => None
  | (k, v) :: rest => if (k =? key)%string then Some v else get rest key
  end.

(** [d.get(key, "") if isinstance(d.get(key, ""), str) else ""] *)
Definition text_field (d : list (string * pyval)) (key : string) : string :=
  match get d key with
  | Some (PStr s) => s
  | _ => ""
  end.

Definition schema_keys : list string := ["summary"; "root_cause"; "fix"; "patch"].

(** [k not in ("summary", "root_cause", "fix", "patch")] for an item. *)
Definition is_extra (kv : string * pyval) : bool :=
  negb (PyStr.mem (fst kv) schema_keys).

(** The dictionary branch of [_normalize_ai_response]: the four schema
    keys as strings, then every other item of the input. *)
Definition normalize_dict (d : list (string * pyval)) : list (string * pyval) :=
  [("summary", PStr (text_field d "summary"));
   ("root_cause", PStr (text_field d "root_cause"));
   ("fix", PStr (text_field d "fix"));
   ("patch", PStr (text_field d "patch"))]
    ++ filter is_extra d.

(** [{"summary": "", "root_cause": text, "fix": "", "patch": ""}] *)
Definition raw_text (text : string) : list (string * pyval) :=
  [("summary", PStr ""); ("root_cause", PStr text);
   ("fix", PStr ""); ("patch", PStr "")].

(** Index of the first occurrence of a character. *)
Fixpoint find_char (c : ascii) (s : string) : option nat :=
  match s with
  | EmptyString => None
  | String x rest =>
      if Ascii.eqb x c then Some 0%nat
      else match find_char c rest with
           | Some i => Some (S i)
           | None => None
           end
  end.

(** Index of the last occurrence of a character. *)
Fixpoint rfind_char (c : ascii) (s : string) : option nat :=
  match s with
  | EmptyString => None
  | String x rest =>
      match rfind_char c rest with
      | Some i => Some (S i)
      | None => if Ascii.eqb x c then Some 0%nat else None
      end
  end.

(** [re.search(r"\{[\s\S]*\}", s)]: the leftmost opening brace that has a
    closing brace after it, up to the last closing brace. *)
Definition brace_span (s : string) : option string :=
  match find_char "{" s with
  | None => None
  | Some i =>
      let tail := substring (S i) (String.length s - S i) s in
      match rfind_char "}" tail with
      | None => None
      | Some j => Some (substring i (S (S j)) s)
      end
  end.

Section Normalize.

Context {json : Json}.

Definition _normalize_ai_response (ai_resp : pyval) : pyval :=
  match ai_resp with
  | PDict d => PDict (normalize_dict d)
  | PStr text =>
      match json_loads text with
      | Some (PDict d) => PDict (normalize_dict d)
      | Some _ => PDict (raw_text text)
      | None =>
          match brace_span text with
          | Some inner =>
              match json_loads inner with
              | Some (PDict d) => PDict (normalize_dict d)
              | _ => PDict (raw_text text)
              end
          | None => PDict (raw_text text)
          end
      end
  | other => PDict (raw_text (py_str other))
  end.

End Normalize.

Definition preview_limit : nat := 8000.

Definition truncation_mark : string := String "010" "...<truncated>".

(** [code if code is None or len(code) < 8000
     else code[:8000] + "\n...<truncated>"], for a code that is a string
    or [None]. *)
Definition code_preview (code : option string) : option string :=
  match code with
  | None => None
  | Some text =>
      if (String.length text <? preview_limit)%nat then Some text
      else Some (substring 0 preview_limit text ++ truncation_mark)
  end.

End Ws.

(** ** The history file ([db.py]) *)

(** What [save_history] needs from the host: whether [HISTORY_FILE]
    exists, reading and writing its text, and [json.dumps(data, indent=2)]. *)
Class HistoryFile := {
  Store : Type;
  history_exists : Store -> bool;
  history_read_text : Store -> exn + string;
  history_write_text : string -> Store -> (exn + unit) * Store;
  json_dumps : pyval -> string
}.

Module Db.

(** [type(x).__name__] *)
Definition type_name (x : pyval) : string :=
  match x with
  | PNone => "NoneType"
  | PBool _ => "bool"
  | PInt _ => "int"
  | PFloat _ => "float"
  | PStr _ => "str"
  | PList _ => "list"
  | PDict _ => "dict"
  | PObject cls _ => cls
  end.

(** [data.append(entry)]: only a list has the method. *)
Definition append (data entry : pyval) : exn + pyval :=
  match data with
  | PList items => inr (PList (items ++ [entry]))
  | other =>
      inl (OtherException
             ("'" ++ type_name other ++ "' object has no attribute 'append'"))
  end.

Section SaveHistory.

Context {json : Json} {file : HistoryFile}.

(** The first half of [save_history]: the history read back, [[]] when
    the file is missing, unreadable or not JSON.  An interrupt while
    reading is not caught. *)
Definition load_history (st : Store) : exn + pyval :=
  if history_exists st then
    match history_read_text st with
    | inr text =>
        match json_loads text with
        | Some data => inr data
        | None => inr (PList [])
        end
    | inl e => if is_Exception e then inr (PList []) else inl e
    end
  else inr (PList []).

Definition save_history (entry : pyval) (st : Store) : (exn + unit) * Store :=
  match load_history st with
  | inl e => (inl e, st)
  | inr data =>
      match append data entry with
      | inl e => (inl e, st)
      | inr data' => history_write_text (json_dumps data') st
      end
  end.

End SaveHistory.

End Db.

(** ** The AI client ([groq_client.py]) *)

(** One [client.chat.completions.create(model=..., messages=...,
    max_tokens=...)] call; a message is its role and its content. *)
Record ChatRequest := mkChatRequest {
  chat_model : string;
  chat_messages : list (string * string);
  chat_max_tokens : Z
}.

(** What the module needs from its surroundings: the environment
    variable [GROQ_API_KEY], whether the [groq] package could be imported,
    the path of the [.env] file, the constructor [Groq(api_key=...)] and
    the completion call. *)
Class GroqHost := {
  GWorld : Type;
  Client : Type;
  getenv_GROQ_API_KEY : GWorld -> option string;
  Groq_imported : bool;
  _dotenv_path : string;
  Groq_new : string -> GWorld -> exn + Client;
  completions_create : Client -> ChatRequest -> GWorld -> (exn + pyval) * GWorld
}.

Module GroqClient.

(** [RuntimeError(msg)]: an [Exception] that no handler of this code base
    singles out. *)
Definition RuntimeError (msg : string) : exn := OtherException msg.

Definition nl : string := String "010" "".
Definition dq : string := String "034" "".

Definition SYSTEM_JSON_INSTRUCTION : string :=
  nl ++ "You are CodeFix AI. ALWAYS respond with a single, valid JSON object and NOTHING else."
  ++ nl ++ "The JSON object must contain exactly the keys: "
  ++ dq ++ "summary" ++ dq ++ ", " ++ dq ++ "root_cause" ++ dq ++ ", "
  ++ dq ++ "fix" ++ dq ++ ", " ++ dq ++ "patch" ++ dq ++ "."
  ++ nl ++ "- summary: short one-line summary (max 260 chars)"
  ++ nl ++ "- root_cause: one-paragraph explanation (plain text, no markdown)"
  ++ nl ++ "- fix: short exact fix steps or minimal code snippet (plain text, can include code text)"
  ++ nl ++ "- patch: raw code patch content only (if no patch, return empty string "
  ++ dq ++ dq ++ ")"
  ++ nl ++ "Do not include any markdown formatting, backticks, headings, or extraneous text."
  ++ nl ++ "Return strictly JSON in the response body." ++ nl.

(** Truth value of a Python value; a plain instance is true. *)
Definition truthy (v : pyval) : bool :=
  match v with
  | PNone => false
  | PBool b => b
  | PInt n => negb (n =? 0)
  | PFloat repr => negb (PyStr.mem repr ["0.0"; "-0.0"])
  | PStr s => negb (s =? "")%string
  | PList items => match items with [] => false | _ => true end
  | PDict items => match items with [] => false | _ => true end
  | PObject _ _ => true
  end.

(** [getattr(obj, name, None)] with an absent attribute, or one that is
    [None], as [None]; for the names this module asks for ([choices],
    [message], [content], [text]), which only an instance can have. *)
Definition getattr (obj : pyval) (name : string) : option pyval :=
  match obj with
  | PObject _ attrs =>
      match Ws.get attrs name with
      | Some PNone => None
      | found => found
      end
  | _ => None
  end.

(** [hasattr(obj, name)] *)
Definition hasattr (obj : pyval) (name : string) : bool :=
  match obj with
  | PObject _ attrs =>
      match Ws.get attrs name with Some _ => true | None => false end
  | _ => false
  end.

(** [x[0]]; [None] when it raises. *)
Definition first_item (x : pyval) : option pyval :=
  match x with
  | PList (item :: _) => Some item
  | PStr (String c _) => Some (PStr (String c ""))
  | _ => None
  end.

(** [x or ""] where [x] is absent, [None] or a value. *)
Definition or_blank (x : option pyval) : pyval :=
  match x with
  | Some v => if truthy v then v else PStr ""
  | None => PStr ""
  end.

(** The [try] block of [_extract_content_from_resp]: the value returned
    from inside it, or [None] when the block is left without returning
    (by falling through or by an exception). *)
Definition from_first_choice (resp : pyval) : option pyval :=
  match resp with
  | PObject _ attrs =>
      match Ws.get attrs "choices" with
      | None => None
      | Some choices =>
          match first_item choices with
          | None => None
          | Some choice0 =>
              match getattr choice0 "message" with
              | Some (PDict d) => Some (or_blank (Ws.get d "content"))
              | msg =>
                  let content :=
                    match msg with
                    | Some m =>
                        if truthy m then
                          match getattr m "content" with
                          | Some c => if truthy c then Some c else None
                          | None => None
                          end
                        else None
                    | None => None
                    end in
                  match content with
                  | Some c => Some c
                  | None =>
                      if hasattr choice0 "text"
                      then Some (or_blank (getattr choice0 "text"))
                      else None
                  end
              end
          end
      end
  | _ => None
  end.

(** The loop over the top-level fields [text], [content], [message]. *)
Fixpoint from_top_level (resp : pyval) (names : list string) : option pyval :=
  match names with
  | [] => None
  | name :: rest =>
      match getattr resp name with
      | Some (PStr s) =>
          if negb (PyStr.strip s =? "")%string then Some (PStr s)
          else from_top_level resp rest
      | Some (PDict d) =>
          match Ws.get d "content" with
          | Some c => Some (or_blank (Some c))
          | None => from_top_level resp rest
          end
      | _ => from_top_level resp rest
      end
  end.

(** [any(k in parsed for k in ("summary", "root_cause", "fix", "patch"))] *)
Definition has_schema_key (d : list (string * pyval)) : bool :=
  existsb (fun k => match Ws.get d k with Some _ => true | None => false end)
    Ws.schema_keys.

(** A parsed document that [ask_groq_json] accepts. *)
Definition accepted (parsed : option pyval) : option pyval :=
  match parsed with
  | Some (PDict d) => if has_schema_key d then Some (PDict d) else None
  | _ => None
  end.

Section Client.

Context {json : Json} {host : GroqHost}.

Definition _extract_content_from_resp (resp : pyval) : pyval :=
  match from_first_choice resp with
  | Some found => found
  | None =>
      match from_top_level resp ["text"; "content"; "message"] with
      | Some found => found
      | None => PStr (py_str resp)
      end
  end.

(** The world of the client together with the log of completion calls. *)
Record GSys := mkGSys {
  gworld : GWorld;
  requested : list ChatRequest
}.

Definition create_client (s : GSys) : exn + Client :=
  match getenv_GROQ_API_KEY (gworld s) with
  | Some (String c key) =>
      if negb Groq_imported then
        inl (RuntimeError "groq package not available. Please pip install groq")
      else
        match Groq_new (String c key) (gworld s) with
        | inr client => inr client
        | inl e =>
            if is_Exception e
            then inl (RuntimeError ("Failed to create Groq client: " ++ exn_str e))
            else inl e
        end
  | _ =>
      inl (RuntimeError
             ("GROQ_API_KEY not set in environment. "
                ++ "Tried to read from env and " ++ _dotenv_path ++ ". "
                ++ "Make sure .env contains: GROQ_API_KEY=YOUR_KEY and restart the server."))
  end.

(** What [ask_groq_json] returns for an extracted content. *)
Definition answer_of (content : pyval) : pyval :=
  let raw := if truthy content then content else PStr "" in
  match content with
  | PStr (String c rest) =>
      let text := String c rest in
      match json_loads text with
      | Some parsed =>
          match accepted (Some parsed) with
          | Some d => d
          | None => raw
          end
      | None =>
          match Ws.brace_span text with
          | Some inner =>
              match accepted (json_loads inner) with
              | Some d => d
              | None => raw
              end
          | None => raw
          end
      end
  | _ => raw
  end.

Definition ask_groq_json (prompt_text model : string) (max_tokens : Z)
           (s : GSys) : (exn + pyval) * GSys :=
  match create_client s with
  | inl e => (inl e, s)
  | inr client =>
      let messages :=
        [("system", SYSTEM_JSON_INSTRUCTION); ("user", prompt_text)] in
      let request := mkChatRequest model messages max_tokens in
      let '(r, w) := completions_create client request (gworld s) in
      let s' := mkGSys w (requested s ++ [request]) in
      match r with
      | inr resp => (inr (answer_of (_extract_content_from_resp resp)), s')
      | inl e =>
          if is_Exception e
          then (inl (RuntimeError ("Groq API error: " ++ exn_str e)), s')
          else (inl e, s')
      end
  end.

End Client.

(** The defaults of [ask_groq_json]. *)
Definition default_model : string := "llama-3.3-70b-versatile".
Definition default_max_tokens : Z := 1000.

End GroqClient.

Module GroqVocabulary.

(** [msg["content"]] for a dictionary message, [msg.content] for an
    instance. *)
Definition message_content (msg : pyval) : option pyval :=
  match msg with
  | PDict d => Ws.get d "content"
  | other => GroqClient.getattr other "content"
  end.

(** A completion whose only choice carries a message with the given
    content and nothing else. *)
Definition completion (content : pyval) : pyval :=
  PObject "ChatCompletion"
    [("choices",
      PList [PObject "Choice"
               [("message", PObject "ChatCompletionMessage"
                              [("content", content)])]])].

End GroqVocabulary.

(** ** The diagnosis endpoints ([api.py], [ws.py]) *)

(** [class DiagnoseRequest(BaseModel)] of [api.py]: every field is
    optional; [mode] and [persona] have defaults. *)
Record DiagnoseRequest := mkDiagnoseRequest {
  diag_filename : option string;
  diag_language : option string;
  diag_code : option string;
  diag_stderr : option string;
  diag_mode : option string;
  diag_persona : option string
}.

(** How a request handler ends: with a response body, with an
    [HTTPException], or with an exception it did not handle. *)
Inductive http_outcome :=
| Responded (body : pyval)
| HTTPException (status_code : Z) (detail : string)
| Unhandled (e : exn).

Module Diagnose.

Import GroqClient.

Definition prompt (req : DiagnoseRequest) : string :=
  nl ++ "Diagnose the user's code and errors. Return ONLY valid JSON with keys 'summary', 'root_cause', 'fix', and 'patch'."
  ++ nl ++ "filename: " ++ PyStr.format_opt (diag_filename req)
  ++ nl ++ "language: " ++ PyStr.format_opt (diag_language req)
  ++ nl ++ "mode: " ++ PyStr.format_opt (diag_mode req)
  ++ nl ++ "persona: " ++ PyStr.format_opt (diag_persona req)
  ++ nl ++ "stderr: " ++ PyStr.format_opt (diag_stderr req)
  ++ nl
  ++ nl ++ "Code:"
  ++ nl ++ PyStr.format_opt (diag_code req)
  ++ nl.

Section Endpoint.

Context {json : Json} {host : GroqHost}.

(** [POST /diagnose] *)
Definition diagnose (req : DiagnoseRequest) (s : GSys) : http_outcome * GSys :=
  let '(r, s') := ask_groq_json (prompt req) default_model default_max_tokens s in
  match r with
  | inr res => (Responded (PDict [("diagnosis", res)]), s')
  | inl e =>
      if is_Exception e then (HTTPException 500 (exn_str e), s')
      else (Unhandled e, s')
  end.

End Endpoint.

End Diagnose.

(** Why sending on the socket failed: the peer is gone
    ([WebSocketDisconnect]) or any other [Exception]. *)
Inductive send_failure :=
| WebSocketDisconnect
| SendError (e : string).

(** Sending a JSON message on the socket: [websocket.send_text(json.dumps(msg))]. *)
Class Socket {host : GroqHost} := {
  send_json : pyval -> GWorld -> (send_failure + unit) * GWorld
}.

(** How one turn of the receive loop ends. *)
Inductive loop_control :=
| Continue
| Break
| Raised (e : exn).

Module WsLoop.

Import GroqClient.

(** [f"{x}"] for a value of the message. *)
Definition format {json : Json} (x : pyval) : string :=
  match x with
  | PStr s => s
  | PNone => "None"
  | other => py_str other
  end.

(** [data.get(key, default)] *)
Definition get_default (data : list (string * pyval)) (key : string)
           (default : pyval) : pyval :=
  match Ws.get data key with
  | Some v => v
  | None => default
  end.

(** [data.get("type") == name] *)
Definition type_is (data : list (string * pyval)) (name : string) : bool :=
  match Ws.get data "type" with
  | Some (PStr t) => (t =? name)%string
  | _ => false
  end.

(** [{"type": "diagnosis_error", "message": text}] *)
Definition error_message (text : string) : pyval :=
  PDict [("type", PStr "diagnosis_error"); ("message", PStr text)].

(** [TypeError] of [code[:8000] + "\n...<truncated>"] on a list. *)
Definition list_concat_error : exn :=
  OtherException ("can only concatenate list (not " ++ dq ++ "str" ++ dq ++ ") to list").

(** The error of [code[:8000]] on a dictionary (a [TypeError]; a
    [KeyError] on the interpreters in which a slice can be hashed). *)
Definition dict_slice_error : exn := OtherException "unhashable type: 'slice'".

(** The [code_preview] expression on any value of the message: [len] is
    undefined on numbers and booleans, and a container of 8000 items or
    more cannot be sliced and joined with the mark. *)
Definition preview (code : pyval) : exn + pyval :=
  match code with
  | PNone => inr PNone
  | PStr text => inr (PStr (PyStr.or_empty (Ws.code_preview (Some text))))
  | PList items =>
      if (length items <? Ws.preview_limit)%nat then inr code
      else inl list_concat_error
  | PDict items =>
      if (length items <? Ws.preview_limit)%nat then inr code
      else inl dict_slice_error
  | other =>
      inl (OtherException
             ("object of type '" ++ Db.type_name other ++ "' has no len()"))
  end.

Definition prompt {json : Json} (data : list (string * pyval))
           (code_preview : pyval) : string :=
  nl ++ "You are CodeFix AI (persona="
  ++ format (get_default data "persona" (PStr "expert"))
  ++ ", mode=" ++ format (get_default data "mode" (PStr "quick"))
  ++ "). ALWAYS respond with a single valid JSON object with keys: summary, root_cause, fix, patch."
  ++ nl ++ "Language: " ++ format (get_default data "language" PNone)
  ++ nl ++ "Filename: " ++ format (get_default data "filename" PNone)
  ++ nl ++ "STDERR:"
  ++ nl ++ format (get_default data "stderr" (PStr ""))
  ++ nl
  ++ nl ++ "Code:"
  ++ nl ++ format code_preview
  ++ nl.

Section Handler.

Context {json : Json} {host : GroqHost} {socket : Socket}.

(** The AI client's system together with the messages handed to the
    socket, in order. *)
Record WsSys := mkWsSys {
  ai : GSys;
  sent : list pyval
}.

Definition send (msg : pyval) (s : WsSys) : (send_failure + unit) * WsSys :=
  let '(r, w) := send_json msg (gworld (ai s)) in
  (r, mkWsSys (mkGSys w (requested (ai s))) (sent s ++ [msg])).

(** [try: await websocket.send_text(...) except Exception: pass] *)
Definition try_send (msg : pyval) (s : WsSys) : WsSys := snd (send msg s).

(** One turn of the loop of [websocket_endpoint], from the text that was
    received to the [continue], the [break] or the exception that ends
    the turn. *)
Definition handle_text (data_raw : string) (s : WsSys) : loop_control * WsSys :=
  match json_loads data_raw with
  | None => (Continue, try_send (error_message "Invalid JSON request") s)
  | Some (PDict data) =>
      if type_is data "ping"
      then (Continue, try_send (PDict [("type", PStr "pong")]) s)
      else if negb (type_is data "diagnose")
      then (Continue,
            try_send
              (error_message "Unsupported message type; expected 'diagnose'.") s)
      else
        match preview (get_default data "code" (PStr "")) with
        | inl e => (Raised e, s)
        | inr code_preview =>
            let '(r, ai') :=
              ask_groq_json (prompt data code_preview) default_model
                default_max_tokens (ai s) in
            let s1 := mkWsSys ai' (sent s) in
            match r with
            | inl e =>
                if is_Exception e
                then (Continue,
                      try_send (error_message ("AI error: " ++ exn_str e)) s1)
                else (Raised e, s1)
            | inr ai_resp =>
                let payload := Ws._normalize_ai_response ai_resp in
                match send (PDict [("type", PStr "diagnosis");
                                   ("diagnosis", payload)]) s1 with
                | (inr _, s2) => (Continue, s2)
                | (inl WebSocketDisconnect, s2) => (Break, s2)
                | (inl (SendError _), s2) =>
                    (Continue,
                     try_send (error_message "Failed to send diagnosis") s2)
                end
            end
        end
  | Some other =>
      (Raised (OtherException
                 ("'" ++ Db.type_name other ++ "' object has no attribute 'get'")),
       s)
  end.

End Handler.

End WsLoop.

(** ** Concrete hosts for the AI client, the socket and the history file *)

Module DemoHosts.

Definition dq : string := String "034" "".

(** The text [{"type": "diagnose", "code": "print(1)"}]. *)
Definition diagnose_text : string :=
  "{" ++ dq ++ "type" ++ dq ++ ": " ++ dq ++ "diagnose" ++ dq ++ ", "
      ++ dq ++ "code" ++ dq ++ ": " ++ dq ++ "print(1)" ++ dq ++ "}".

Definition diagnose_message : pyval :=
  PDict [("type", PStr "diagnose"); ("code", PStr "print(1)")].

(** The text [{"summary": "off by one", "confidence": 3}]. *)
Definition answer_text : string :=
  "{" ++ dq ++ "summary" ++ dq ++ ": " ++ dq ++ "off by one" ++ dq ++ ", "
      ++ dq ++ "confidence" ++ dq ++ ": 3}".

Definition answer_dict : list (string * pyval) :=
  [("summary", PStr "off by one"); ("confidence", PInt 3)].

(** The documents the demo decoder knows. *)
Definition documents : list (string * pyval) :=
  [("[1, 2]", PList [PInt 1; PInt 2]);
   ("42", PInt 42);
   ("{}", PDict []);
   (diagnose_text, diagnose_message);
   (answer_text, PDict answer_dict)].

Definition loads (text : string) : option pyval := Ws.get documents text.

(** A rendering of values; containers and instances are abbreviated. *)
Definition render (x : pyval) : string :=
  match x with
  | PNone => "None"
  | PBool true => "True"
  | PBool false => "False"
  | PInt n => PyStr.of_Z n
  | PFloat repr => repr
  | PStr s => s
  | PList _ => "[...]"
  | PDict _ => "{...}"
  | PObject cls _ => "<" ++ cls ++ " object>"
  end.

Definition json : Json := {| json_loads := loads; py_str := render |}.

(** A history file as its text, if it exists; writing always succeeds. *)
Definition history : HistoryFile :=
  {| Store := option string;
     history_exists := fun st => match st with Some _ => true | None => false end;
     history_read_text := fun st =>
       match st with
       | Some text => inr text
       | None => inl (FileNotFoundError "[Errno 2] No such file or directory")
       end;
     history_write_text := fun text _ => (inr tt, Some text);
     json_dumps := render |}.

(** The world of the AI client: the API key in the environment and the
    outcomes of the completion calls to come. *)
Record AiWorld := mkAiWorld {
  api_key : option string;
  replies : list (exn + pyval)
}.

Definition complete (client : string) (request : ChatRequest) (w : AiWorld)
  : (exn + pyval) * AiWorld :=
  match replies w with
  | [] => (inl (OtherException "Connection error."), w)
  | reply :: rest => (reply, mkAiWorld (api_key w) rest)
  end.

Definition groq : GroqHost :=
  {| GWorld := AiWorld;
     Client := string;
     getenv_GROQ_API_KEY := api_key;
     Groq_imported := true;
     _dotenv_path := "/srv/app/.env";
     Groq_new := fun key _ => inr key;
     completions_create := complete |}.

(** A socket on which every message is delivered. *)
Definition deliver (msg : pyval) (w : AiWorld) : (send_failure + unit) * AiWorld :=
  (inr tt, w).

Definition socket : @Socket groq := @Build_Socket groq deliver.

(** The AI answers the next call with a completion carrying [answer_text]. *)
Definition answering : AiWorld :=
  mkAiWorld (Some "gsk_demo")
    [inr (GroqVocabulary.completion (PStr answer_text))].

End DemoHosts.

Module Demo2.

(** Only [javac] is installed; compilation succeeds. *)
Definition javac_only : ScriptedWorld :=
  mkScripted [("javac", "/usr/bin/javac")] [Demo.completed "" "" 0] [] 0.

(** [python3] is installed and the run is interrupted from the keyboard. *)
Definition interrupted : ScriptedWorld :=
  mkScripted [("python3", "/usr/bin/python3")] [inl KeyboardInterrupt] [] 0.

(** [python3] is installed and the program prints a line. *)
Definition python_prints : ScriptedWorld :=
  mkScripted [("python3", "/usr/bin/python3")] [Demo.completed "hi" "" 0] [] 0.

End Demo2.

(** ** Checks of the library models on concrete inputs *)

Example quote_plain : shlex.quote "main.py" = "main.py".
Proof. reflexivity. Qed.

Example quote_space : shlex.quote "my file.c" = "'my file.c'".
Proof. reflexivity. Qed.

Example split_quoted :
  shlex.split "gcc 'my file.c' -o  out\ x" = inr ["gcc"; "my file.c"; "-o"; "out x"].
Proof. reflexivity. Qed.

Example split_unclosed : shlex.split "echo 'oops" = inl "No closing quotation".
Proof. reflexivity. Qed.

Example of_Z_30 : PyStr.of_Z 30 = "30" /\ PyStr.of_Z 0 = "0" /\ PyStr.of_Z (-5) = "-5".
Proof. repeat split; reflexivity. Qed.

Example strip_lower : PyStr.lower (PyStr.strip "  C++ ") = "c++".
Proof. reflexivity. Qed.

(** NO-BREAK SPACE and NEXT LINE are white space: ['\xa0js\x85'] is [js]. *)
Example strip_no_break_space :
  PyStr.strip (String "160" ("js" ++ String "133" "")) = "js".
Proof. reflexivity. Qed.

(** ['RUB\xdd'.lower()] ends in U+00FD; the multiplication sign and the
    sharp s have no lower case of their own. *)
Example lower_latin_capitals :
  PyStr.lower ("RUB" ++ String "221" (String "215" (String "223" "")))
  = "rub" ++ String "253" (String "215" (String "223" "")).
Proof. reflexivity. Qed.

(** An absolute second part replaces the first one. *)
Example join_absolute :
  Scripted.path_join "/tmp/tmp0" "/etc/motd" = "/etc/motd"
  /\ Scripted.path_join "/tmp/tmp0" "main.py" = "/tmp/tmp0/main.py"
  /\ Scripted.path_join "/tmp/" "main.py" = "/tmp/main.py".
Proof. repeat split. Qed.

Example posix_paths :
  PurePosixPath.str "//srv/./a//b/" = "//srv/a/b"
  /\ PurePosixPath.parent "main.c" = "."
  /\ PurePosixPath.suffix "/x/a.tar.gz" = ".gz"
  /\ PurePosixPath.stem "/x/Main.java" = "Main"
  /\ PurePosixPath.joinpath "/tmp/x" "a_out_exec" = "/tmp/x/a_out_exec".
Proof. repeat split; reflexivity. Qed.

(** ** The process invoker *)

Section InvokerFacts.

Context {platform : Platform}.

Lemma skipn_own_length {A} (l extra : list A) :
  skipn (length l) (l ++ extra) = extra.
Proof.
  induction l as [|x l IH]; simpl; [reflexivity | exact IH].
Qed.

(** When a request is made, the [try] block is exactly that request. *)
Lemma run_command_try_request cmd cwd timeout s req :
  popen_request cmd cwd timeout = Some req ->
  run_command_try cmd cwd timeout s =
    (fst (subprocess_run req (world s)), reconstructed cmd,
     mkSys (snd (subprocess_run req (world s))) (spawned s ++ [req])).
Proof.
  unfold popen_request, run_command_try, reconstructed, subprocess_run_logged.
  destruct cmd as [argv | line].
  - intros [= <-]. destruct (subprocess_run _ (world s)); reflexivity.
  - destruct (os_name =? "nt")%string.
    + intros [= <-]. destruct (subprocess_run _ (world s)); reflexivity.
    + destruct (shlex.split line) as [msg | args]; [discriminate |].
      intros [= <-]. destruct (subprocess_run _ (world s)); reflexivity.
Qed.

(** When no request is made, the string did not tokenize and nothing
    happened to the system. *)
Lemma run_command_try_no_request cmd cwd timeout s :
  popen_request cmd cwd timeout = None ->
  exists line msg,
    cmd = CmdStr line /\ shlex.split line = inl msg /\
    run_command_try cmd cwd timeout s = (inl (ValueError msg), line, s).
Proof.
  unfold popen_request, run_command_try.
  destruct cmd as [argv | line]; [discriminate |].
  destruct (os_name =? "nt")%string; [discriminate |].
  destruct (shlex.split line) as [msg | args] eqn:Hsplit; [| discriminate].
  intros _. exists line, msg. auto.
Qed.

(** The log only grows, by the request if there is one. *)
Lemma run_command_spawned cmd cwd timeout s :
  spawned (snd (run_command cmd cwd timeout s)) =
    (spawned s ++ match popen_request cmd cwd timeout with
                  | Some req => [req]
                  | None => []
                  end)%list.
Proof.
  unfold run_command.
  destruct (popen_request cmd cwd timeout) as [req |] eqn:Hreq.
  - rewrite (run_command_try_request _ _ _ s _ Hreq).
    destruct (fst (subprocess_run req (world s))) as [[] | proc];
      reflexivity.
  - destruct (run_command_try_no_request _ _ _ s Hreq)
      as (line & msg & -> & _ & ->).
    simpl. now rewrite app_nil_r.
Qed.

(** An exception that leaves [run_command] is not an [Exception]. *)
Lemma run_command_escape cmd cwd timeout s e s' :
  run_command cmd cwd timeout s = (inl e, s') -> is_Exception e = false.
Proof.
  unfold run_command.
  destruct (run_command_try cmd cwd timeout s) as [[[x | proc] executed] s1].
  - destruct x; simpl; intros [= <- _]; try discriminate; reflexivity.
  - discriminate.
Qed.

(** C2: for every command, working directory and timeout, when the
    process that was created runs past the timeout ([subprocess.run]
    raises [TimeoutExpired]), the invoker returns empty stdout, the
    message "TimeoutExpired: process exceeded <timeout> seconds" as
    stderr, and return code 124. *)
Theorem run_command_timeout cmd cwd timeout s req e w' :
  popen_request cmd cwd timeout = Some req ->
  subprocess_run req (world s) = (inl (TimeoutExpired e), w') ->
  run_command cmd cwd timeout s =
    (inr (mkResult "" (timeout_message timeout) 124 (reconstructed cmd)),
     mkSys w' (spawned s ++ [req])).
Proof.
  intros Hreq Hrun. unfold run_command.
  rewrite (run_command_try_request _ _ _ s _ Hreq), Hrun.
  reflexivity.
Qed.

(** C3: whenever creating the process fails to launch it -- file not
    found, permission denied, any other [OSError] or [Exception] raised
    before the process produced anything -- the invoker returns empty
    stdout, a non-empty "RunnerError: ..." message as stderr and return
    code 125; and no [Exception] whatsoever leaves the invoker. *)
Theorem run_command_launch_failure cmd cwd timeout s req e w' :
  popen_request cmd cwd timeout = Some req ->
  subprocess_run req (world s) = (inl e, w') ->
  launch_failure e = true ->
  run_command cmd cwd timeout s =
    (inr (mkResult "" (runner_error_message e) 125 (reconstructed cmd)),
     mkSys w' (spawned s ++ [req]))
  /\ runner_error_message e <> ""
  /\ forall cmd' cwd' timeout' s0 e' s1,
       run_command cmd' cwd' timeout' s0 = (inl e', s1) ->
       is_Exception e' = false.
Proof.
  intros Hreq Hrun Hfail. split; [| split].
  - unfold run_command.
    rewrite (run_command_try_request _ _ _ s _ Hreq), Hrun.
    destruct e; simpl in *; try reflexivity; discriminate.
  - destruct e; discriminate.
  - intros; eapply run_command_escape; eassumption.
Qed.

(** C6 (amended): a command given as a single string is, on a host whose
    [os.name] is not [nt], tokenized by [shlex.split] and executed as that
    argument list without a shell, while a string that does not tokenize
    is reported with return code 125 and nothing is executed; on a host
    whose [os.name] is [nt] the string is passed untokenized to the
    shell. *)
Theorem string_command_tokenized line cwd timeout s :
  let log := spawned_by (run_command (CmdStr line) cwd timeout) s in
  if (os_name =? "nt")%string then
    log = [mkPopen (CmdStr line) cwd timeout true]
  else
    match shlex.split line with
    | inr args =>
        log = [mkPopen (CmdList args) cwd timeout false]
        /\ Forall (tokenized_without_shell line) log
    | inl msg =>
        log = []
        /\ run_command (CmdStr line) cwd timeout s =
             (inr (mkResult "" ("RunnerError: " ++ msg) 125 line), s)
    end.
Proof.
  cbv zeta. unfold spawned_by.
  rewrite run_command_spawned, skipn_own_length.
  unfold popen_request, run_command, run_command_try.
  destruct (os_name =? "nt")%string; [reflexivity |].
  destruct (shlex.split line) as [msg | args] eqn:Hsplit.
  - split; reflexivity.
  - split; [reflexivity |].
    constructor; [| constructor]. split; [reflexivity | exact Hsplit].
Qed.

End InvokerFacts.

(** ** The dispatcher *)

Section DispatcherFacts.

Context {platform : Platform} {pathlib : Pathlib}.

Lemma is_executable_available_run name s :
  is_executable_available name s = (inr (available (world s) name), s).
Proof.
  unfold is_executable_available, available, bind, which, ret.
  destruct (shutil_which name (world s)); reflexivity.
Qed.

Lemma which_python_run s :
  which_python s = (inr (python_in (world s)), s).
Proof.
  unfold which_python, python_in, PyStr.or_else, bind, which, ret.
  destruct (PyStr.truthy (shutil_which "python" (world s))); reflexivity.
Qed.

Lemma select_compiler_run b s :
  select_compiler b s =
    (inr (if b then
            if available (world s) "g++" then Some "g++"
            else if available (world s) "clang++" then Some "clang++" else None
          else
            if available (world s) "gcc" then Some "gcc"
            else if available (world s) "clang" then Some "clang" else None),
     s).
Proof.
  unfold select_compiler, bind.
  destruct b; rewrite is_executable_available_run.
  - destruct (available (world s) "g++"); [reflexivity |].
    rewrite is_executable_available_run.
    destruct (available (world s) "clang++"); reflexivity.
  - destruct (available (world s) "gcc"); [reflexivity |].
    rewrite is_executable_available_run.
    destruct (available (world s) "clang"); reflexivity.
Qed.

Lemma mem_cases x xs : PyStr.mem x xs = true -> In x xs.
Proof.
  unfold PyStr.mem. intros H. apply existsb_exists in H.
  destruct H as (y & Hin & Heq). apply String.eqb_eq in Heq. now subst.
Qed.

Ltac calm :=
  cbn -[run_command _make_executable_path is_executable_available
        select_compiler which_python].

Ltac enter_branch lng Hlang :=
  unfold run_linter_for_language; fold (normalize lng);
  rewrite Hlang; calm; unfold bind, ret.

(** The compile-and-run branches as one state machine: look for the
    compiler, compile, stop on a non-zero return code, otherwise (for
    Java, if [java] is on PATH) run. *)
Lemma dispatch_compile_and_run file_path language timeout s :
  PyStr.mem (normalize language) compile_and_run_keys = true ->
  run_linter_for_language file_path language timeout s =
    let lang := normalize language in
    let cwd := Path_parent file_path in
    match compiler_for (world s) lang with
    | None => (inr (mkResult "" (missing_toolchain_message lang) 125 ""), s)
    | Some compiler =>
        match run_command (CmdList (compile_cmd_of lang file_path compiler))
                (Some cwd) timeout s with
        | (inl e, s1) => (inl e, s1)
        | (inr rc, s1) =>
            if returncode rc =? 0 then
              if (lang =? "java")%string && negb (available (world s1) "java")
              then (inr (mkResult (stdout rc)
                           "Compiled but `java` runtime not found on PATH."
                           125 (executed_cmd rc)), s1)
              else
                match run_command (CmdList (run_cmd_of lang file_path))
                        (Some cwd) timeout s1 with
                | (inl e, s2) => (inl e, s2)
                | (inr rr, s2) =>
                    (inr (mkResult (stdout rr) (stderr rr) (returncode rr)
                            (executed_cmd rc ++ " ; " ++ executed_cmd rr)), s2)
                end
            else (inr rc, s1)
        end
    end.
Proof.
  intros Hmem. apply mem_cases in Hmem.
  destruct Hmem as [Hlang | [Hlang | [Hlang | [Hlang | []]]]];
    symmetry in Hlang; enter_branch language Hlang.
  - rewrite is_executable_available_run.
    unfold compiler_for, compile_cmd_of, run_cmd_of; calm.
    destruct (available (world s) "javac"); calm; [| reflexivity].
    destruct (run_command _ _ _ s) as [[e | rc] s1]; [reflexivity |].
    destruct (returncode rc =? 0); calm; [| reflexivity].
    rewrite is_executable_available_run.
    destruct (available (world s1) "java"); calm; [| reflexivity].
    destruct (run_command _ _ _ s1) as [[e | rr] s2]; reflexivity.
  - rewrite select_compiler_run. unfold exe_path_of.
    destruct (available (world s) "gcc");
      [| destruct (available (world s) "clang")]; calm; try reflexivity;
      (destruct (run_command _ _ _ s) as [[e | rc] s1]; [reflexivity |];
       destruct (returncode rc =? 0); calm; [| reflexivity];
       destruct (run_command _ _ _ s1) as [[e | rr] s2]; reflexivity).
  - rewrite select_compiler_run. unfold exe_path_of.
    destruct (available (world s) "g++");
      [| destruct (available (world s) "clang++")]; calm; try reflexivity;
      (destruct (run_command _ _ _ s) as [[e | rc] s1]; [reflexivity |];
       destruct (returncode rc =? 0); calm; [| reflexivity];
       destruct (run_command _ _ _ s1) as [[e | rr] s2]; reflexivity).
  - rewrite select_compiler_run. unfold exe_path_of.
    destruct (available (world s) "g++");
      [| destruct (available (world s) "clang++")]; calm; try reflexivity;
      (destruct (run_command _ _ _ s) as [[e | rc] s1]; [reflexivity |];
       destruct (returncode rc =? 0); calm; [| reflexivity];
       destruct (run_command _ _ _ s1) as [[e | rr] s2]; reflexivity).
Qed.

(** The Python branch: the interpreter if there is one, else [pylint],
    else the missing-toolchain result. *)
Lemma dispatch_python file_path language timeout s :
  PyStr.mem (normalize language) ["python"; "py"] = true ->
  run_linter_for_language file_path language timeout s =
    let cwd := Path_parent file_path in
    if PyStr.truthy (python_in (world s)) then
      run_command
        (CmdList [PyStr.or_empty (python_in (world s)); Path_str file_path])
        (Some cwd) timeout s
    else if available (world s) "pylint" then
      run_command (CmdList ["pylint"; Path_str file_path]) (Some cwd) timeout s
    else
      (inr (mkResult "" "No python interpreter or pylint found on PATH." 125 ""), s).
Proof.
  intros Hmem. apply mem_cases in Hmem.
  destruct Hmem as [Hlang | [Hlang | []]];
    symmetry in Hlang; enter_branch language Hlang;
    rewrite which_python_run;
    (destruct (PyStr.truthy (python_in (world s))); [reflexivity |]);
    rewrite is_executable_available_run;
    destruct (available (world s) "pylint"); reflexivity.
Qed.

(** The JavaScript branch: [node] if there is one, else [eslint], else
    the missing-toolchain result. *)
Lemma dispatch_javascript file_path language timeout s :
  PyStr.mem (normalize language) ["javascript"; "js"; "node"] = true ->
  run_linter_for_language file_path language timeout s =
    let cwd := Path_parent file_path in
    if available (world s) "node" then
      run_command (CmdList ["node"; Path_str file_path]) (Some cwd) timeout s
    else if available (world s) "eslint" then
      run_command (CmdList ["eslint"; Path_str file_path]) (Some cwd) timeout s
    else
      (inr (mkResult "" "No node or eslint found on PATH." 125 ""), s).
Proof.
  intros Hmem. apply mem_cases in Hmem.
  destruct Hmem as [Hlang | [Hlang | [Hlang | []]]];
    symmetry in Hlang; enter_branch language Hlang;
    rewrite is_executable_available_run;
    (destruct (available (world s) "node"); [reflexivity |]);
    rewrite is_executable_available_run;
    destruct (available (world s) "eslint"); reflexivity.
Qed.

(** The last branch, taken by every key outside the supported ones. *)
Lemma dispatch_fallback file_path language timeout s :
  PyStr.mem (normalize language) supported_keys = false ->
  run_linter_for_language file_path language timeout s =
    if (Path_suffix file_path =? ".py")%string
       && PyStr.truthy (python_in (world s))
    then
      run_command
        (CmdList [PyStr.or_empty (python_in (world s)); Path_str file_path])
        (Some (Path_parent file_path)) timeout s
    else (inr (no_runner language), s).
Proof.
  intros Hmem.
  unfold run_linter_for_language. fold (normalize language).
  remember (normalize language) as lang eqn:Hlang.
  unfold PyStr.mem, supported_keys in *. cbn [existsb] in *.
  repeat match type of Hmem with
         | (?test || _) = false =>
             apply orb_false_iff in Hmem;
             let Hk := fresh "Hk" in
             destruct Hmem as [Hk Hmem]; rewrite ?Hk
         end.
  cbn [orb].
  destruct (Path_suffix file_path =? ".py")%string; [| reflexivity].
  unfold bind. rewrite which_python_run. cbn [andb].
  destruct (PyStr.truthy (python_in (world s))); reflexivity.
Qed.

Lemma spawned_by_eq {A} (m : M A) s r s' extra :
  m s = (r, s') -> spawned s' = (spawned s ++ extra)%list ->
  spawned_by m s = extra.
Proof.
  intros Hm Hlog. unfold spawned_by. rewrite Hm. simpl.
  rewrite Hlog. apply skipn_own_length.
Qed.

(** What a finished [run_command] on an argument list leaves behind. *)
Lemma run_command_list argv cwd timeout s r s' :
  run_command (CmdList argv) cwd timeout s = (r, s') ->
  spawned s' = (spawned s ++ [mkPopen (CmdList argv) cwd timeout false])%list
  /\ forall res, r = inr res ->
       executed_cmd res = PyStr.join " " (map shlex.quote argv).
Proof.
  intros Hrun. split.
  - pose proof (run_command_spawned (CmdList argv) cwd timeout s) as Hlog.
    rewrite Hrun in Hlog. exact Hlog.
  - intros res ->. unfold run_command in Hrun.
    rewrite (run_command_try_request (CmdList argv) cwd timeout s _ eq_refl)
      in Hrun.
    destruct (fst (subprocess_run _ (world s))) as [[] | proc];
      simpl in Hrun; inversion Hrun; reflexivity.
Qed.

(** Compilation succeeded and the run step is allowed: the result is
    the run step's, with both reconstructed commands. *)
Lemma compile_then_run file_path language timeout s compiler rc s1 rr s2 :
  PyStr.mem (normalize language) compile_and_run_keys = true ->
  compiler_for (world s) (normalize language) = Some compiler ->
  run_command (CmdList (compile_cmd_of (normalize language) file_path compiler))
    (Some (Path_parent file_path)) timeout s = (inr rc, s1) ->
  returncode rc = 0 ->
  (normalize language = "java" -> available (world s1) "java" = true) ->
  run_command (CmdList (run_cmd_of (normalize language) file_path))
    (Some (Path_parent file_path)) timeout s1 = (inr rr, s2) ->
  run_linter_for_language file_path language timeout s =
    (inr (mkResult (stdout rr) (stderr rr) (returncode rr)
            (executed_cmd rc ++ " ; " ++ executed_cmd rr)), s2).
Proof.
  intros Hmem Hcomp Hcompile Hzero Hjava Hrun.
  rewrite (dispatch_compile_and_run _ _ _ _ Hmem). cbv zeta.
  rewrite Hcomp, Hcompile, Hzero. cbn [Z.eqb].
  destruct (normalize language =? "java")%string eqn:Hkey.
  - apply String.eqb_eq in Hkey. rewrite (Hjava Hkey). cbn [negb andb].
    rewrite Hrun. reflexivity.
  - cbn [andb]. rewrite Hrun. reflexivity.
Qed.

(** C1: for java, c, cpp and c++, when the compile step returns a
    non-zero return code the dispatcher returns the compile step's
    result as it is, and the only process created is the compiler: the
    run step is never started. *)
Theorem compile_failure_returned file_path language timeout s compiler rc s1 :
  PyStr.mem (normalize language) compile_and_run_keys = true ->
  compiler_for (world s) (normalize language) = Some compiler ->
  run_command (CmdList (compile_cmd_of (normalize language) file_path compiler))
    (Some (Path_parent file_path)) timeout s = (inr rc, s1) ->
  returncode rc <> 0 ->
  run_linter_for_language file_path language timeout s = (inr rc, s1)
  /\ spawned_by (run_linter_for_language file_path language timeout) s =
       [mkPopen (CmdList (compile_cmd_of (normalize language) file_path compiler))
          (Some (Path_parent file_path)) timeout false].
Proof.
  intros Hmem Hcomp Hcompile Hrc.
  assert (Hres : run_linter_for_language file_path language timeout s
                 = (inr rc, s1)).
  { rewrite (dispatch_compile_and_run _ _ _ _ Hmem). cbv zeta.
    rewrite Hcomp, Hcompile.
    apply Z.eqb_neq in Hrc. rewrite Hrc. reflexivity. }
  split; [exact Hres |].
  eapply spawned_by_eq; [exact Hres |].
  apply (run_command_list _ _ _ _ _ _ Hcompile).
Qed.

(** C4: for every supported language key, when none of the programs its
    branch looks for (preference list and linter) is on PATH, the
    dispatcher returns return code 125 with the branch's explanation as
    stderr, creates no process and leaves the world as it was. *)
Theorem missing_toolchain file_path language timeout s :
  PyStr.mem (normalize language) supported_keys = true ->
  (forall name, In name (toolchains (normalize language)) ->
                shutil_which name (world s) = None) ->
  run_linter_for_language file_path language timeout s =
    (inr (mkResult "" (missing_toolchain_message (normalize language)) 125 ""), s)
  /\ missing_toolchain_message (normalize language) <> ""
  /\ spawned_by (run_linter_for_language file_path language timeout) s = [].
Proof.
  intros Hmem Habsent.
  assert (Hres : run_linter_for_language file_path language timeout s =
            (inr (mkResult "" (missing_toolchain_message (normalize language))
                    125 ""), s)).
  { assert (Hcases : PyStr.mem (normalize language) ["python"; "py"] = true
                     \/ PyStr.mem (normalize language)
                          ["javascript"; "js"; "node"] = true
                     \/ PyStr.mem (normalize language)
                          compile_and_run_keys = true).
    { apply mem_cases in Hmem. simpl in Hmem.
      destruct Hmem as [H|[H|[H|[H|[H|[H|[H|[H|[H|[]]]]]]]]]];
        rewrite <- H; auto. }
    destruct Hcases as [Hpy | [Hjs | Hcr]].
    - rewrite (dispatch_python _ _ _ _ Hpy). cbv zeta.
      unfold missing_toolchain_message, toolchains in *.
      rewrite Hpy in *. unfold python_in, available.
      rewrite !Habsent by (simpl; auto). reflexivity.
    - rewrite (dispatch_javascript _ _ _ _ Hjs). cbv zeta.
      apply mem_cases in Hjs.
      destruct Hjs as [H | [H | [H | []]]]; rewrite <- H in *;
        unfold available; rewrite !Habsent by (simpl; auto); reflexivity.
    - rewrite (dispatch_compile_and_run _ _ _ _ Hcr). cbv zeta.
      apply mem_cases in Hcr.
      destruct Hcr as [H | [H | [H | [H | []]]]]; rewrite <- H in *;
        unfold compiler_for, available; cbn [String.eqb Ascii.eqb Bool.eqb is_cpp PyStr.mem existsb orb];
        rewrite !Habsent by (simpl; auto); reflexivity. }
  split; [exact Hres |]. split.
  - unfold missing_toolchain_message.
    destruct (PyStr.mem _ ["python"; "py"]); [discriminate |].
    destruct (PyStr.mem _ ["javascript"; "js"; "node"]); [discriminate |].
    destruct (_ =? "java")%string; discriminate.
  - eapply spawned_by_eq; [exact Hres |]. now rewrite app_nil_r.
Qed.

(** C5: for java, c, cpp and c++, when the compile step returns 0 and
    the run step is performed, the reported command is the compile
    step's reconstructed command, then " ; ", then the run step's
    reconstructed command. *)
Theorem both_phases_reported file_path language timeout s compiler rc s1 rr s2 :
  PyStr.mem (normalize language) compile_and_run_keys = true ->
  compiler_for (world s) (normalize language) = Some compiler ->
  run_command (CmdList (compile_cmd_of (normalize language) file_path compiler))
    (Some (Path_parent file_path)) timeout s = (inr rc, s1) ->
  returncode rc = 0 ->
  (normalize language = "java" -> available (world s1) "java" = true) ->
  run_command (CmdList (run_cmd_of (normalize language) file_path))
    (Some (Path_parent file_path)) timeout s1 = (inr rr, s2) ->
  exists r,
    run_linter_for_language file_path language timeout s = (inr r, s2)
    /\ executed_cmd r = executed_cmd rc ++ " ; " ++ executed_cmd rr
    /\ executed_cmd r =
         PyStr.join " "
           (map shlex.quote
              (compile_cmd_of (normalize language) file_path compiler))
         ++ " ; "
         ++ PyStr.join " "
              (map shlex.quote (run_cmd_of (normalize language) file_path)).
Proof.
  intros Hmem Hcomp Hcompile Hzero Hjava Hrun.
  eexists. split; [| split].
  - eapply compile_then_run; eassumption.
  - reflexivity.
  - cbn [executed_cmd].
    rewrite (proj2 (run_command_list _ _ _ _ _ _ Hcompile) rc eq_refl).
    rewrite (proj2 (run_command_list _ _ _ _ _ _ Hrun) rr eq_refl).
    reflexivity.
Qed.

(** C10: for java, c, cpp and c++, when the compile step returns 0 and
    the run step is performed, the stdout and stderr (and return code)
    of the result are the run step's; what the compiler printed is not
    part of the result. *)
Theorem run_output_returned file_path language timeout s compiler rc s1 rr s2 :
  PyStr.mem (normalize language) compile_and_run_keys = true ->
  compiler_for (world s) (normalize language) = Some compiler ->
  run_command (CmdList (compile_cmd_of (normalize language) file_path compiler))
    (Some (Path_parent file_path)) timeout s = (inr rc, s1) ->
  returncode rc = 0 ->
  (normalize language = "java" -> available (world s1) "java" = true) ->
  run_command (CmdList (run_cmd_of (normalize language) file_path))
    (Some (Path_parent file_path)) timeout s1 = (inr rr, s2) ->
  exists r,
    run_linter_for_language file_path language timeout s = (inr r, s2)
    /\ stdout r = stdout rr /\ stderr r = stderr rr
    /\ returncode r = returncode rr.
Proof.
  intros Hmem Hcomp Hcompile Hzero Hjava Hrun.
  eexists. split; [eapply compile_then_run; eassumption |].
  repeat split.
Qed.

(** C7 (amended): for every language key outside the supported ones, if
    the file's suffix is [.py] and [python] or [python3] is on PATH the
    dispatcher runs that interpreter on the file; in every other case
    (including a [.py] file with no interpreter, for which [pylint] is
    not tried) it returns return code 125 with a stderr that quotes the
    language as given, and creates no process. *)
Theorem unsupported_language file_path language timeout s :
  PyStr.mem (normalize language) supported_keys = false ->
  if (Path_suffix file_path =? ".py")%string
     && PyStr.truthy (python_in (world s))
  then
    run_linter_for_language file_path language timeout s =
      run_command
        (CmdList [PyStr.or_empty (python_in (world s)); Path_str file_path])
        (Some (Path_parent file_path)) timeout s
  else
    run_linter_for_language file_path language timeout s =
      (inr (mkResult ""
              ("No runner available for language '"
                 ++ PyStr.format_opt language ++ "'.") 125 ""), s)
    /\ spawned_by (run_linter_for_language file_path language timeout) s = [].
Proof.
  intros Hmem. pose proof (dispatch_fallback file_path _ timeout s Hmem) as Hd.
  destruct ((Path_suffix file_path =? ".py")%string
            && PyStr.truthy (python_in (world s))).
  - exact Hd.
  - split; [exact Hd |].
    eapply spawned_by_eq; [exact Hd |]. now rewrite app_nil_r.
Qed.

(** C8: the executable path is the directory joined with the name plus
    [.exe] when [os.name] is [nt] and with the bare name otherwise; and
    in the C / C++ branch, when no compiler is found no process is
    created, and otherwise the compiler is run with exactly the arguments
    compiler, file, [-o], that executable path (and [-std=c++17] for cpp
    and c++), followed -- exactly when compilation returned 0 -- by the
    run step, whose one argument is that same path. *)
Theorem executable_path_consistent file_path language timeout s :
  PyStr.mem (normalize language) ["c"; "cpp"; "c++"] = true ->
  let lang := normalize language in
  let cwd := Path_parent file_path in
  let exe :=
    Path_join cwd
      (if (os_name =? "nt")%string then "a_out_exec.exe" else "a_out_exec") in
  let log := spawned_by (run_linter_for_language file_path language timeout) s in
  (forall dir name,
      _make_executable_path dir name =
        Path_join dir (if (os_name =? "nt")%string then name ++ ".exe" else name))
  /\ match compiler_for (world s) lang with
     | None => log = []
     | Some compiler =>
         let compile_argv :=
           ([compiler; Path_str file_path; "-o"; exe]
              ++ (if is_cpp lang then ["-std=c++17"] else []))%list in
         let compile := mkPopen (CmdList compile_argv) (Some cwd) timeout false in
         let run := mkPopen (CmdList [exe]) (Some cwd) timeout false in
         match fst (run_command (CmdList compile_argv) (Some cwd) timeout s) with
         | inr rc =>
             if returncode rc =? 0 then log = [compile; run]
             else log = [compile]
         | inl _ => log = [compile]
         end
     end.
Proof.
  intros Hc lang cwd exe log. split.
  { intros dir name. unfold _make_executable_path.
    destruct (os_name =? "nt")%string; reflexivity. }
  assert (Hexe : _make_executable_path cwd "a_out_exec" = exe).
  { unfold _make_executable_path, exe.
    destruct (os_name =? "nt")%string; reflexivity. }
  assert (Hmem : PyStr.mem lang compile_and_run_keys = true).
  { apply mem_cases in Hc. unfold lang.
    destruct Hc as [H | [H | [H | []]]]; rewrite <- H; reflexivity. }
  assert (Hnj : (lang =? "java")%string = false).
  { apply mem_cases in Hc. unfold lang.
    destruct Hc as [H | [H | [H | []]]]; rewrite <- H; reflexivity. }
  pose proof (dispatch_compile_and_run file_path _ timeout s Hmem) as Hd.
  cbv zeta in Hd. fold lang cwd in Hd. rewrite Hnj in Hd. cbn [andb] in Hd.
  assert (Hargv : forall compiler,
            compiler_for (world s) lang = Some compiler ->
            compile_cmd_of lang file_path compiler =
              ([compiler; Path_str file_path; "-o"; exe]
                 ++ (if is_cpp lang then ["-std=c++17"] else []))%list).
  { intros compiler. unfold compiler_for, compile_cmd_of, exe_path_of.
    fold cwd. rewrite Hnj, Hexe.
    destruct (is_cpp lang).
    - destruct (available (world s) "g++");
        [| destruct (available (world s) "clang++")];
        intros [= <-]; reflexivity.
    - intros _. reflexivity. }
  assert (Hrun : run_cmd_of lang file_path = [exe]).
  { unfold run_cmd_of, exe_path_of. fold cwd. now rewrite Hnj, Hexe. }
  destruct (compiler_for (world s) lang) as [compiler |].
  2:{ eapply spawned_by_eq; [exact Hd |]. now rewrite app_nil_r. }
  rewrite (Hargv compiler eq_refl), Hrun in Hd. cbv zeta.
  destruct (run_command (CmdList _) (Some cwd) timeout s)
    as [r1 s1] eqn:Hcompile.
  apply run_command_list in Hcompile. destruct Hcompile as [Hlog1 _].
  cbn [fst]. destruct r1 as [e | rc].
  { eapply spawned_by_eq; [exact Hd | exact Hlog1]. }
  destruct (returncode rc =? 0).
  2:{ eapply spawned_by_eq; [exact Hd | exact Hlog1]. }
  destruct (run_command (CmdList [exe]) (Some cwd) timeout s1)
    as [r2 s2] eqn:Hexec.
  apply run_command_list in Hexec. destruct Hexec as [Hlog2 _].
  rewrite Hlog1, <- app_assoc in Hlog2.
  destruct r2 as [e | rr];
    (eapply spawned_by_eq; [exact Hd | exact Hlog2]).
Qed.


Lemma grows_refl P s : grows_with P s s.
Proof. exists []. split; [now rewrite app_nil_r | constructor]. Qed.

Lemma grows_trans P s1 s2 s3 :
  grows_with P s1 s2 -> grows_with P s2 s3 -> grows_with P s1 s3.
Proof.
  intros (e1 & H1 & F1) (e2 & H2 & F2). exists (e1 ++ e2)%list. split.
  - rewrite H2, H1. now rewrite app_assoc.
  - apply Forall_app. now split.
Qed.

(** Every request of [run_command] carries the timeout it was given. *)
Lemma run_command_grows cmd cwd timeout s :
  grows_with (fun req => popen_timeout req = timeout) s
    (snd (run_command cmd cwd timeout s)).
Proof.
  unfold grows_with. rewrite run_command_spawned. eexists. split; [reflexivity |].
  unfold popen_request. destruct cmd as [argv | line].
  - repeat constructor.
  - destruct (os_name =? "nt")%string; [repeat constructor |].
    destruct (shlex.split line); repeat constructor.
Qed.

(** Every process the dispatcher creates is given the dispatcher's
    timeout. *)
Lemma dispatcher_grows file_path language timeout s :
  grows_with (fun req => popen_timeout req = timeout) s
    (snd (run_linter_for_language file_path language timeout s)).
Proof.
  destruct (PyStr.mem (normalize language) supported_keys) eqn:Hmem.
  - assert (Hcases : PyStr.mem (normalize language) ["python"; "py"] = true
                     \/ PyStr.mem (normalize language)
                          ["javascript"; "js"; "node"] = true
                     \/ PyStr.mem (normalize language)
                          compile_and_run_keys = true).
    { apply mem_cases in Hmem. simpl in Hmem.
      destruct Hmem as [H|[H|[H|[H|[H|[H|[H|[H|[H|[]]]]]]]]]];
        rewrite <- H; auto. }
    destruct Hcases as [Hpy | [Hjs | Hcr]].
    + rewrite (dispatch_python _ _ _ _ Hpy). cbv zeta.
      destruct (PyStr.truthy _); [apply run_command_grows |].
      destruct (available _ _); [apply run_command_grows | apply grows_refl].
    + rewrite (dispatch_javascript _ _ _ _ Hjs). cbv zeta.
      destruct (available _ "node"); [apply run_command_grows |].
      destruct (available _ _); [apply run_command_grows | apply grows_refl].
    + rewrite (dispatch_compile_and_run _ _ _ _ Hcr). cbv zeta.
      destruct (compiler_for _ _) as [compiler |]; [| apply grows_refl].
      pose proof (run_command_grows
                    (CmdList (compile_cmd_of (normalize language) file_path compiler))
                    (Some (Path_parent file_path)) timeout s) as H1.
      destruct (run_command _ _ _ s) as [[e | rc] s1]; [exact H1 |].
      cbn [snd] in H1.
      destruct (returncode rc =? 0); [| exact H1].
      destruct (_ && _); [exact H1 |].
      pose proof (run_command_grows
                    (CmdList (run_cmd_of (normalize language) file_path))
                    (Some (Path_parent file_path)) timeout s1) as H2.
      destruct (run_command _ _ _ s1) as [[e | rr] s2];
        exact (grows_trans _ _ _ _ H1 H2).
  - rewrite (dispatch_fallback _ _ _ _ Hmem).
    destruct (_ && _); [apply run_command_grows | apply grows_refl].
Qed.

End DispatcherFacts.

(** ** The HTTP caller *)

Section ApiFacts.

Context {platform : Platform} {pathlib : Pathlib} {fs : Filesystem}.

(** A key that is not a field of [RunRequest] has no influence on the
    request that is built. *)
Lemma validate_ignores_timeout body v :
  RunRequest_validate (("timeout_seconds", v) :: body) = RunRequest_validate body.
Proof.
  unfold RunRequest_validate. cbn [json_get].
  destruct (json_get "language" body), (json_get "code" body),
    (json_get "filename" body); reflexivity.
Qed.

Lemma grows_same_log P (s s' : Sys) :
  spawned s' = spawned s -> grows_with P s s'.
Proof.
  intros H. exists []. split; [now rewrite app_nil_r | constructor].
Qed.

Lemma grows_from_log P (s0 s s' : Sys) :
  spawned s0 = spawned s -> grows_with P s0 s' -> grows_with P s s'.
Proof. intros H (extra & Hlog & Hall). exists extra. now rewrite <- H. Qed.

Lemma grows_to_log P (s s' s'' : Sys) :
  grows_with P s s' -> spawned s'' = spawned s' -> grows_with P s s''.
Proof. intros (extra & Hlog & Hall) H. exists extra. now rewrite H. Qed.

Lemma run_code_grows req s :
  grows_with (fun r => popen_timeout r = default_timeout) s (snd (run_code req s)).
Proof.
  unfold run_code, with_TemporaryDirectory.
  destruct (TemporaryDirectory_enter (world s)) as [[e | td] w];
    [now apply grows_same_log |].
  unfold bind at 1. unfold write_file. cbn [world spawned].
  destruct (write_text _ _ w) as [[e | []] w1].
  - cbn. destruct (TemporaryDirectory_exit td w1) as [[e' | u] w2];
      now apply grows_same_log.
  - unfold bind.
    match goal with
    | |- context [run_linter_for_language ?fp ?lg ?t ?s0] =>
        pose proof (dispatcher_grows fp lg t s0) as Hd;
        destruct (run_linter_for_language fp lg t s0) as [[e | r] s1]
    end; cbn [snd] in Hd; unfold ret;
      apply (grows_from_log _ _ s _ eq_refl) in Hd;
      destruct (TemporaryDirectory_exit td (world s1)) as [[e' | u] w2];
      cbn [snd]; (eapply grows_to_log; [exact Hd | reflexivity]).
Qed.

(** C9 (amended): the input of the run interface has the fields
    language, filename and code only: a [timeout_seconds] key in the
    body changes nothing, and every process created for a request is
    given the fixed timeout of 30 seconds. *)
Theorem request_timeout_is_fixed body s :
  Forall (fun req => popen_timeout req = 30) (spawned_by (post_run body) s)
  /\ forall v, post_run (("timeout_seconds", v) :: body) = post_run body.
Proof.
  split.
  - unfold spawned_by, post_run.
    destruct (RunRequest_validate body) as [req |].
    + unfold bind. pose proof (run_code_grows req s) as (extra & Hlog & Hall).
      destruct (run_code req s) as [[e | resp] s1]; unfold ret;
        cbn [snd] in *; rewrite Hlog, skipn_own_length; exact Hall.
    + cbn. rewrite <- (app_nil_r (spawned s)) at 2.
      rewrite skipn_own_length. constructor.
  - intros v. unfold post_run. now rewrite validate_ignores_timeout.
Qed.

End ApiFacts.

(** ** The theorems at concrete requests *)

Section OnPosix.

#[local] Existing Instance Scripted.posix.
#[local] Existing Instance PurePosixPath.flavour.
#[local] Existing Instance Scripted.posix_fs.

Lemma compile_failure_returned_witness :
  let s := Scripted.start Demo.gcc_rejects in
  let failed :=
    mkResult "" "main.c:1:1: error: expected declaration" 1
      "gcc /tmp/w/main.c -o /tmp/w/a_out_exec" in
  let s1 :=
    mkSys (mkScripted [("gcc", "/usr/bin/gcc")] [] [] 0)
      [mkPopen (CmdList ["gcc"; "/tmp/w/main.c"; "-o"; "/tmp/w/a_out_exec"])
         (Some "/tmp/w") 30 false] in
  (PyStr.mem (normalize (Some " C ")) compile_and_run_keys = true
   /\ compiler_for (world s) (normalize (Some " C ")) = Some "gcc"
   /\ returncode failed <> 0)
  /\ (run_linter_for_language "/tmp/w/main.c" (Some " C ") 30 s = (inr failed, s1)
      /\ spawned_by (run_linter_for_language "/tmp/w/main.c" (Some " C ") 30) s =
           [mkPopen
              (CmdList (compile_cmd_of (normalize (Some " C ")) "/tmp/w/main.c" "gcc"))
              (Some (Path_parent "/tmp/w/main.c")) 30 false]).
Proof.
  intros s failed s1. split.
  - split; [reflexivity | split; [reflexivity | discriminate]].
  - apply (compile_failure_returned "/tmp/w/main.c" (Some " C ") 30 s "gcc"
             failed s1);
      [reflexivity | reflexivity | reflexivity | discriminate].
Defined.

Lemma run_command_timeout_witness :
  let s := Scripted.start Demo.python_hangs in
  let cmd := CmdList ["/usr/bin/python3"; "/tmp/w/main.py"] in
  let req := mkPopen cmd (Some "/tmp/w") 1 false in
  (popen_request cmd (Some "/tmp/w") 1 = Some req
   /\ subprocess_run req (world s) =
        (inl (TimeoutExpired "Command timed out"),
         mkScripted [("python3", "/usr/bin/python3")] [] [] 0))
  /\ run_command cmd (Some "/tmp/w") 1 s =
       (inr (mkResult "" "TimeoutExpired: process exceeded 1 seconds" 124
               "/usr/bin/python3 /tmp/w/main.py"),
        mkSys (mkScripted [("python3", "/usr/bin/python3")] [] [] 0) [req]).
Proof.
  intros s cmd req. split.
  - split; reflexivity.
  - apply (run_command_timeout cmd (Some "/tmp/w") 1 s req "Command timed out");
      reflexivity.
Defined.

Lemma run_command_launch_failure_witness :
  let s := Scripted.start Demo.not_executable in
  let cmd := CmdList ["/tmp/w/a_out_exec"] in
  let req := mkPopen cmd (Some "/tmp/w") 30 false in
  let e := PermissionError "[Errno 13] Permission denied: '/tmp/w/a_out_exec'" in
  (popen_request cmd (Some "/tmp/w") 30 = Some req
   /\ subprocess_run req (world s) = (inl e, Demo.bare)
   /\ launch_failure e = true)
  /\ (run_command cmd (Some "/tmp/w") 30 s =
        (inr (mkResult "" (runner_error_message e) 125 (reconstructed cmd)),
         mkSys Demo.bare (spawned s ++ [req]))
      /\ runner_error_message e <> ""
      /\ forall cmd' cwd' timeout' s0 e' s1,
           run_command cmd' cwd' timeout' s0 = (inl e', s1) ->
           is_Exception e' = false).
Proof.
  intros s cmd req e. split.
  - repeat split.
  - apply (run_command_launch_failure cmd (Some "/tmp/w") 30 s req e Demo.bare);
      reflexivity.
Defined.

Lemma string_command_tokenized_witness :
  let s := Scripted.start Demo.gcc_rejects in
  let log := spawned_by (run_command (CmdStr "gcc 'my file.c' -o out") None 30) s in
  log = [mkPopen (CmdList ["gcc"; "my file.c"; "-o"; "out"]) None 30 false]
  /\ Forall (tokenized_without_shell "gcc 'my file.c' -o out") log.
Proof.
  intros s log.
  exact (string_command_tokenized "gcc 'my file.c' -o out" None 30 s).
Defined.

Lemma missing_toolchain_witness :
  let s := Scripted.start Demo.bare in
  (PyStr.mem (normalize (Some "JavaScript")) supported_keys = true
   /\ forall name, In name (toolchains (normalize (Some "JavaScript"))) ->
                   shutil_which name (world s) = None)
  /\ (run_linter_for_language "/tmp/w/main.js" (Some "JavaScript") 30 s =
        (inr (mkResult ""
                (missing_toolchain_message (normalize (Some "JavaScript"))) 125 ""),
         s)
      /\ missing_toolchain_message (normalize (Some "JavaScript")) <> ""
      /\ spawned_by (run_linter_for_language "/tmp/w/main.js" (Some "JavaScript") 30) s
         = []).
Proof.
  intros s. split.
  - split; [reflexivity | intros name _; reflexivity].
  - apply (missing_toolchain "/tmp/w/main.js" (Some "JavaScript") 30 s);
      [reflexivity | intros name _; reflexivity].
Defined.

Lemma both_phases_reported_witness :
  let s := Scripted.start Demo.jdk in
  let jdk_path := [("javac", "/usr/bin/javac"); ("java", "/usr/bin/java")] in
  let compile := mkPopen (CmdList ["javac"; "/tmp/w/Main.java"]) (Some "/tmp/w") 30 false in
  let run := mkPopen (CmdList ["java"; "-cp"; "/tmp/w"; "Main"]) (Some "/tmp/w") 30 false in
  let rc := mkResult "" "Note: Main.java uses unchecked operations." 0
              "javac /tmp/w/Main.java" in
  let s1 := mkSys (mkScripted jdk_path [Demo.completed "2" "" 0] [] 0) [compile] in
  let rr := mkResult "2" "" 0 "java -cp /tmp/w Main" in
  let s2 := mkSys (mkScripted jdk_path [] [] 0) [compile; run] in
  (compiler_for (world s) (normalize (Some "java")) = Some "javac"
   /\ returncode rc = 0
   /\ available (world s1) "java" = true)
  /\ exists r,
      run_linter_for_language "/tmp/w/Main.java" (Some "java") 30 s = (inr r, s2)
      /\ executed_cmd r = executed_cmd rc ++ " ; " ++ executed_cmd rr
      /\ executed_cmd r =
           PyStr.join " "
             (map shlex.quote
                (compile_cmd_of (normalize (Some "java")) "/tmp/w/Main.java" "javac"))
           ++ " ; "
           ++ PyStr.join " "
                (map shlex.quote (run_cmd_of (normalize (Some "java")) "/tmp/w/Main.java")).
Proof.
  intros s jdk_path compile run rc s1 rr s2. split.
  - repeat split.
  - apply (both_phases_reported "/tmp/w/Main.java" (Some "java") 30 s "javac"
             rc s1 rr s2); reflexivity.
Defined.

Lemma run_output_returned_witness :
  let s := Scripted.start Demo.gxx_accepts in
  let gxx_path := [("g++", "/usr/bin/g++")] in
  let argv := ["g++"; "/tmp/w/main.cpp"; "-o"; "/tmp/w/a_out_exec"; "-std=c++17"] in
  let compile := mkPopen (CmdList argv) (Some "/tmp/w") 30 false in
  let run := mkPopen (CmdList ["/tmp/w/a_out_exec"]) (Some "/tmp/w") 30 false in
  let rc := mkResult "" "" 0 "g++ /tmp/w/main.cpp -o /tmp/w/a_out_exec -std=c++17" in
  let s1 := mkSys (mkScripted gxx_path [Demo.completed "hello" "" 2] [] 0) [compile] in
  let rr := mkResult "hello" "" 2 "/tmp/w/a_out_exec" in
  let s2 := mkSys (mkScripted gxx_path [] [] 0) [compile; run] in
  (compiler_for (world s) (normalize (Some "C++")) = Some "g++"
   /\ compile_cmd_of (normalize (Some "C++")) "/tmp/w/main.cpp" "g++" = argv
   /\ returncode rc = 0)
  /\ exists r,
      run_linter_for_language "/tmp/w/main.cpp" (Some "C++") 30 s = (inr r, s2)
      /\ stdout r = stdout rr /\ stderr r = stderr rr
      /\ returncode r = returncode rr.
Proof.
  intros s gxx_path argv compile run rc s1 rr s2. split.
  - repeat split.
  - apply (run_output_returned "/tmp/w/main.cpp" (Some "C++") 30 s "g++"
             rc s1 rr s2); try reflexivity.
    intros H. discriminate H.
Defined.

Lemma unsupported_language_witness :
  let s := Scripted.start Demo.gcc_rejects in
  PyStr.mem (normalize (Some "ruby")) supported_keys = false
  /\ (run_linter_for_language "/tmp/w/main.rb" (Some "ruby") 30 s =
        (inr (mkResult "" "No runner available for language 'ruby'." 125 ""), s)
      /\ spawned_by (run_linter_for_language "/tmp/w/main.rb" (Some "ruby") 30) s = []).
Proof.
  intros s. split.
  - reflexivity.
  - exact (unsupported_language "/tmp/w/main.rb" (Some "ruby") 30 s eq_refl).
Defined.

Lemma executable_path_consistent_witness :
  let s := Scripted.start Demo.gxx_accepts in
  let log := spawned_by (run_linter_for_language "/tmp/w/main.cpp" (Some "cpp") 30) s in
  let compile :=
    mkPopen (CmdList ["g++"; "/tmp/w/main.cpp"; "-o"; "/tmp/w/a_out_exec";
                      "-std=c++17"]) (Some "/tmp/w") 30 false in
  let run := mkPopen (CmdList ["/tmp/w/a_out_exec"]) (Some "/tmp/w") 30 false in
  PyStr.mem (normalize (Some "cpp")) ["c"; "cpp"; "c++"] = true
  /\ ((forall dir name,
         _make_executable_path dir name =
           Path_join dir (if (os_name =? "nt")%string then name ++ ".exe" else name))
      /\ log = [compile; run]).
Proof.
  intros s log compile run. split.
  - reflexivity.
  - exact (executable_path_consistent "/tmp/w/main.cpp" (Some "cpp") 30 s eq_refl).
Defined.

(** Counterexample to C7 as stated: the fallback for an unsupported key
    is not the Python branch.  With a [.py] file, no interpreter and
    [pylint] installed, the Python branch runs [pylint] while the fallback
    returns 125 without creating a process. *)
Lemma fallback_is_not_python_policy :
  let s := Scripted.start Demo.pylint_only in
  PyStr.mem (normalize (Some "ruby")) supported_keys = false
  /\ Path_suffix "/tmp/w/main.py" = ".py"
  /\ run_linter_for_language "/tmp/w/main.py" (Some "ruby") 30 s =
       (inr (mkResult "" "No runner available for language 'ruby'." 125 ""), s)
  /\ spawned_by (run_linter_for_language "/tmp/w/main.py" (Some "python") 30) s =
       [mkPopen (CmdList ["pylint"; "/tmp/w/main.py"]) (Some "/tmp/w") 30 false]
  /\ run_linter_for_language "/tmp/w/main.py" (Some "ruby") 30 s <>
     run_linter_for_language "/tmp/w/main.py" (Some "python") 30 s.
Proof.
  intros s. repeat split. vm_compute. discriminate.
Qed.

(** Counterexample to C9 as stated: a request body with
    [timeout_seconds] set to 1 is accepted, and its process is created
    with a timeout of 30, not 1. *)
Lemma timeout_seconds_not_honoured :
  let s := Scripted.start Demo.python_hangs in
  let log := spawned_by (post_run Demo.one_second_body) s in
  described_timeout Demo.one_second_body = 1
  /\ map popen_timeout log = [30]
  /\ ~ Forall (fun req => popen_timeout req = described_timeout Demo.one_second_body)
         log.
Proof.
  intros s log. split; [reflexivity | split; [reflexivity |]].
  intros H. vm_compute in H. inversion H as [| ? ? Hhead _]. discriminate Hhead.
Qed.

End OnPosix.

Section OnWindows.

#[local] Existing Instance Scripted.windows.

(** Counterexample to C6 as stated: on a host whose [os.name] is [nt], a
    command given as one string is handed to the shell as it is; it is
    not tokenized, and the program is looked up by the shell. *)
Lemma windows_string_command_uses_shell :
  let s := Scripted.start_nt Demo.bare in
  let log := spawned_by (run_command (CmdStr "echo 'a b'") None 30) s in
  shlex.split "echo 'a b'" = inr ["echo"; "a b"]
  /\ log = [mkPopen (CmdStr "echo 'a b'") None 30 true]
  /\ ~ Forall (tokenized_without_shell "echo 'a b'") log.
Proof.
  intros s log. split; [reflexivity | split; [reflexivity |]].
  intros H. vm_compute in H. inversion H as [| ? ? [Hshell _] _].
  discriminate Hshell.
Qed.

End OnWindows.

(** ** Further facts about the process invoker and the dispatcher *)

Section MoreInvokerFacts.

Context {platform : Platform}.

(** X1: when the process that was created completes, the invoker returns
    its captured stdout and stderr ([None] read as the empty string) and
    its return code, whatever that code is, together with the
    reconstructed command. *)
Theorem run_command_completed cmd cwd timeout s req proc w' :
  popen_request cmd cwd timeout = Some req ->
  subprocess_run req (world s) = (inr proc, w') ->
  run_command cmd cwd timeout s =
    (inr (mkResult (PyStr.or_empty (proc_stdout proc))
            (PyStr.or_empty (proc_stderr proc))
            (proc_returncode proc) (reconstructed cmd)),
     mkSys w' (spawned s ++ [req])).
Proof.
  intros Hreq Hrun. unfold run_command.
  rewrite (run_command_try_request _ _ _ s _ Hreq), Hrun. reflexivity.
Qed.

(** X2: on a host whose [os.name] is not [nt], a command string that
    [shlex.split] rejects (an unclosed quote, a trailing backslash) is
    reported as return code 125 with "RunnerError: <message>" and the raw
    string as executed command; no process is created and the world is
    untouched. *)
Theorem run_command_untokenizable line cwd timeout s msg :
  os_name <> "nt" ->
  shlex.split line = inl msg ->
  run_command (CmdStr line) cwd timeout s =
    (inr (mkResult "" ("RunnerError: " ++ msg) 125 line), s).
Proof.
  intros Hos Hsplit. apply String.eqb_neq in Hos.
  unfold run_command, run_command_try. rewrite Hos, Hsplit. reflexivity.
Qed.

End MoreInvokerFacts.

Section MoreDispatcherFacts.

Context {platform : Platform} {pathlib : Pathlib}.

Lemma supported_cases lang :
  PyStr.mem lang supported_keys = true ->
  PyStr.mem lang ["python"; "py"] = true
  \/ PyStr.mem lang ["javascript"; "js"; "node"] = true
  \/ PyStr.mem lang compile_and_run_keys = true.
Proof.
  intros Hmem. apply mem_cases in Hmem. simpl in Hmem.
  destruct Hmem as [H|[H|[H|[H|[H|[H|[H|[H|[H|[]]]]]]]]]];
    rewrite <- H; auto.
Qed.

Lemma compile_and_run_not_interpreted lang :
  PyStr.mem lang compile_and_run_keys = true ->
  PyStr.mem lang ["python"; "py"] = false
  /\ PyStr.mem lang ["javascript"; "js"; "node"] = false.
Proof.
  intros Hmem. apply mem_cases in Hmem.
  destruct Hmem as [H | [H | [H | [H | []]]]]; rewrite <- H; split; reflexivity.
Qed.

(** A request with an argument list satisfies whatever holds of every
    such request. *)
Lemma run_command_list_grows P argv cwd timeout s :
  P (mkPopen (CmdList argv) cwd timeout false) ->
  grows_with P s (snd (run_command (CmdList argv) cwd timeout s)).
Proof.
  intros HP. exists [mkPopen (CmdList argv) cwd timeout false]. split.
  - apply run_command_spawned.
  - constructor; [exact HP | constructor].
Qed.

(** Whatever holds of every list request in the file's directory with the
    dispatcher's timeout holds of every request the dispatcher makes. *)
Lemma dispatcher_requests P file_path language timeout s :
  (forall argv,
      P (mkPopen (CmdList argv) (Some (Path_parent file_path)) timeout false)) ->
  grows_with P s (snd (run_linter_for_language file_path language timeout s)).
Proof.
  intros HP.
  destruct (PyStr.mem (normalize language) supported_keys) eqn:Hmem.
  - destruct (supported_cases _ Hmem) as [Hpy | [Hjs | Hcr]].
    + rewrite (dispatch_python _ _ _ _ Hpy). cbv zeta.
      destruct (PyStr.truthy _); [now apply run_command_list_grows |].
      destruct (available _ _);
        [now apply run_command_list_grows | apply grows_refl].
    + rewrite (dispatch_javascript _ _ _ _ Hjs). cbv zeta.
      destruct (available _ "node"); [now apply run_command_list_grows |].
      destruct (available _ _);
        [now apply run_command_list_grows | apply grows_refl].
    + rewrite (dispatch_compile_and_run _ _ _ _ Hcr). cbv zeta.
      destruct (compiler_for _ _) as [compiler |]; [| apply grows_refl].
      pose proof (run_command_list_grows P
                    (compile_cmd_of (normalize language) file_path compiler)
                    (Some (Path_parent file_path)) timeout s (HP _)) as H1.
      destruct (run_command _ _ _ s) as [[e | rc] s1]; [exact H1 |].
      cbn [snd] in H1.
      destruct (returncode rc =? 0); [| exact H1].
      destruct (_ && _); [exact H1 |].
      pose proof (run_command_list_grows P
                    (run_cmd_of (normalize language) file_path)
                    (Some (Path_parent file_path)) timeout s1 (HP _)) as H2.
      destruct (run_command _ _ _ s1) as [[e | rr] s2];
        exact (grows_trans _ _ _ _ H1 H2).
  - rewrite (dispatch_fallback _ _ _ _ Hmem).
    destruct (_ && _); [now apply run_command_list_grows | apply grows_refl].
Qed.

(** X3: every process the dispatcher creates, in every branch and on
    every host, is requested with an argument list and without a shell,
    in the directory of the source file and with the timeout the
    dispatcher was given. *)
Theorem dispatcher_requests_are_plain file_path language timeout s :
  Forall (plain_request (Path_parent file_path) timeout)
    (spawned_by (run_linter_for_language file_path language timeout) s).
Proof.
  destruct (dispatcher_requests
              (plain_request (Path_parent file_path) timeout)
              file_path language timeout s) as (extra & Hlog & Hall).
  - intros argv. repeat split. now exists argv.
  - unfold spawned_by. rewrite Hlog, skipn_own_length. exact Hall.
Qed.

Lemma at_most_refl n s : grows_by_at_most n s s.
Proof. exists []. split; [now rewrite app_nil_r | simpl; lia]. Qed.

Lemma run_command_at_most_one cmd cwd timeout s :
  grows_by_at_most 1 s (snd (run_command cmd cwd timeout s)).
Proof.
  eexists. split; [apply run_command_spawned |].
  destruct (popen_request cmd cwd timeout); simpl; lia.
Qed.

Lemma at_most_weaken n m s s' :
  (n <= m)%nat -> grows_by_at_most n s s' -> grows_by_at_most m s s'.
Proof. intros Hle (extra & Hlog & Hlen). exists extra. split; [exact Hlog | lia]. Qed.

Lemma at_most_trans n m s1 s2 s3 :
  grows_by_at_most n s1 s2 -> grows_by_at_most m s2 s3 ->
  grows_by_at_most (n + m) s1 s3.
Proof.
  intros (e1 & H1 & L1) (e2 & H2 & L2). exists (e1 ++ e2)%list. split.
  - rewrite H2, H1. now rewrite app_assoc.
  - rewrite length_app. lia.
Qed.

(** X4: the dispatcher creates at most two processes for java, c, cpp and
    c++ and at most one for every other language key, supported or not. *)
Theorem dispatcher_process_bound file_path language timeout s :
  (length (spawned_by (run_linter_for_language file_path language timeout) s)
   <= max_processes (normalize language))%nat.
Proof.
  assert (H : grows_by_at_most (max_processes (normalize language)) s
                (snd (run_linter_for_language file_path language timeout s))).
  { unfold max_processes.
    destruct (PyStr.mem (normalize language) supported_keys) eqn:Hmem.
    - destruct (supported_cases _ Hmem) as [Hpy | [Hjs | Hcr]].
      + rewrite (dispatch_python _ _ _ _ Hpy). cbv zeta.
        apply (at_most_weaken 1); [destruct (PyStr.mem _ compile_and_run_keys); lia |].
        destruct (PyStr.truthy _); [apply run_command_at_most_one |].
        destruct (available _ _);
          [apply run_command_at_most_one | apply at_most_refl].
      + rewrite (dispatch_javascript _ _ _ _ Hjs). cbv zeta.
        apply (at_most_weaken 1); [destruct (PyStr.mem _ compile_and_run_keys); lia |].
        destruct (available _ "node"); [apply run_command_at_most_one |].
        destruct (available _ _);
          [apply run_command_at_most_one | apply at_most_refl].
      + rewrite Hcr. rewrite (dispatch_compile_and_run _ _ _ _ Hcr). cbv zeta.
        destruct (compiler_for _ _) as [compiler |]; [| apply at_most_refl].
        pose proof (run_command_at_most_one
                      (CmdList (compile_cmd_of (normalize language) file_path compiler))
                      (Some (Path_parent file_path)) timeout s) as H1.
        destruct (run_command _ _ _ s) as [[e | rc] s1];
          [exact (at_most_weaken 1 2 _ _ ltac:(lia) H1) |].
        cbn [snd] in H1.
        destruct (returncode rc =? 0);
          [| exact (at_most_weaken 1 2 _ _ ltac:(lia) H1)].
        destruct (_ && _); [exact (at_most_weaken 1 2 _ _ ltac:(lia) H1) |].
        pose proof (run_command_at_most_one
                      (CmdList (run_cmd_of (normalize language) file_path))
                      (Some (Path_parent file_path)) timeout s1) as H2.
        destruct (run_command _ _ _ s1) as [[e | rr] s2];
          exact (at_most_trans 1 1 _ _ _ H1 H2).
    - rewrite (dispatch_fallback _ _ _ _ Hmem).
      apply (at_most_weaken 1); [destruct (PyStr.mem _ compile_and_run_keys); lia |].
      destruct (_ && _); [apply run_command_at_most_one | apply at_most_refl]. }
  destruct H as (extra & Hlog & Hlen).
  unfold spawned_by. rewrite Hlog, skipn_own_length. exact Hlen.
Qed.

(** X5: no [Exception] leaves the dispatcher: whenever it raises instead
    of returning a result, what it raises is outside the [Exception]
    class (an interrupt that [run_command] does not catch). *)
Theorem dispatcher_escape file_path language timeout s e s' :
  run_linter_for_language file_path language timeout s = (inl e, s') ->
  is_Exception e = false.
Proof.
  destruct (PyStr.mem (normalize language) supported_keys) eqn:Hmem.
  - destruct (supported_cases _ Hmem) as [Hpy | [Hjs | Hcr]].
    + rewrite (dispatch_python _ _ _ _ Hpy). cbv zeta.
      destruct (PyStr.truthy _); [apply run_command_escape |].
      destruct (available _ _); [apply run_command_escape | discriminate].
    + rewrite (dispatch_javascript _ _ _ _ Hjs). cbv zeta.
      destruct (available _ "node"); [apply run_command_escape |].
      destruct (available _ _); [apply run_command_escape | discriminate].
    + rewrite (dispatch_compile_and_run _ _ _ _ Hcr). cbv zeta.
      destruct (compiler_for _ _) as [compiler |]; [| discriminate].
      destruct (run_command _ _ _ s) as [[e1 | rc] s1] eqn:H1.
      { intros [= <- _]. eapply run_command_escape; exact H1. }
      destruct (returncode rc =? 0); [| discriminate].
      destruct (_ && _); [discriminate |].
      destruct (run_command _ _ _ s1) as [[e2 | rr] s2] eqn:H2;
        [| discriminate].
      intros [= <- _]. eapply run_command_escape; exact H2.
  - rewrite (dispatch_fallback _ _ _ _ Hmem).
    destruct (_ && _); [apply run_command_escape | discriminate].
Qed.

(** X6: for java, when compilation returns 0 but [java] is not on PATH
    afterwards, the dispatcher returns the compiler's stdout, the message
    "Compiled but `java` runtime not found on PATH.", return code 125 and
    the compile command; the compiler is the only process created. *)
Theorem java_runtime_missing file_path language timeout s rc s1 :
  normalize language = "java" ->
  available (world s) "javac" = true ->
  run_command (CmdList ["javac"; Path_str file_path])
    (Some (Path_parent file_path)) timeout s = (inr rc, s1) ->
  returncode rc = 0 ->
  available (world s1) "java" = false ->
  run_linter_for_language file_path language timeout s =
    (inr (mkResult (stdout rc) "Compiled but `java` runtime not found on PATH."
            125 (executed_cmd rc)), s1)
  /\ spawned_by (run_linter_for_language file_path language timeout) s =
       [mkPopen (CmdList ["javac"; Path_str file_path])
          (Some (Path_parent file_path)) timeout false].
Proof.
  intros Hlang Hjavac Hcompile Hzero Hjava.
  assert (Hmem : PyStr.mem (normalize language) compile_and_run_keys = true)
    by now rewrite Hlang.
  assert (Hres : run_linter_for_language file_path language timeout s =
            (inr (mkResult (stdout rc)
                    "Compiled but `java` runtime not found on PATH."
                    125 (executed_cmd rc)), s1)).
  { rewrite (dispatch_compile_and_run _ _ _ _ Hmem). cbv zeta.
    rewrite Hlang. unfold compiler_for, compile_cmd_of. cbn [String.eqb Ascii.eqb Bool.eqb].
    rewrite Hjavac, Hcompile, Hzero, Hjava. reflexivity. }
  split; [exact Hres |].
  eapply spawned_by_eq; [exact Hres |].
  apply (run_command_list _ _ _ _ _ _ Hcompile).
Qed.

(** X7: for a supported language the dispatcher looks at the language
    argument only through its normal form: two spellings that agree after
    stripping white space and lowering the case give the same outcome. *)
Theorem dispatch_by_normal_form file_path language language' timeout s :
  normalize language = normalize language' ->
  PyStr.mem (normalize language) supported_keys = true ->
  run_linter_for_language file_path language timeout s =
    run_linter_for_language file_path language' timeout s.
Proof.
  intros Hsame Hmem.
  destruct (supported_cases _ Hmem) as [Hpy | [Hjs | Hcr]].
  - rewrite (dispatch_python _ language _ _ Hpy).
    rewrite Hsame in Hpy. now rewrite (dispatch_python _ language' _ _ Hpy).
  - rewrite (dispatch_javascript _ language _ _ Hjs).
    rewrite Hsame in Hjs. now rewrite (dispatch_javascript _ language' _ _ Hjs).
  - rewrite (dispatch_compile_and_run _ language _ _ Hcr).
    rewrite Hsame in Hcr.
    rewrite (dispatch_compile_and_run _ language' _ _ Hcr).
    now rewrite Hsame.
Qed.

(** X8: the first process of the C / C++ branch is the compiler with the
    arguments file, [-o], executable path, followed by [-std=c++17] for
    cpp and c++ and by nothing for c; the compiler is [g++] or [clang++]
    for cpp and c++ and [gcc] or [clang] for c. *)
Theorem c_family_compile_command file_path language timeout s req rest :
  PyStr.mem (normalize language) ["c"; "cpp"; "c++"] = true ->
  spawned_by (run_linter_for_language file_path language timeout) s = req :: rest ->
  let cpp := is_cpp (normalize language) in
  exists compiler,
    In compiler (if cpp then ["g++"; "clang++"] else ["gcc"; "clang"])
    /\ popen_args req =
         CmdList ([compiler; Path_str file_path; "-o";
                   _make_executable_path (Path_parent file_path) "a_out_exec"]
                    ++ (if cpp then ["-std=c++17"] else []))%list.
Proof.
  intros Hc Hlog cpp.
  assert (Hmem : PyStr.mem (normalize language) compile_and_run_keys = true).
  { apply mem_cases in Hc. destruct Hc as [H | [H | [H | []]]];
      rewrite <- H; reflexivity. }
  assert (Hnj : (normalize language =? "java")%string = false).
  { apply mem_cases in Hc. destruct Hc as [H | [H | [H | []]]];
      rewrite <- H; reflexivity. }
  pose proof (dispatch_compile_and_run file_path _ timeout s Hmem) as Hd.
  cbv zeta in Hd. rewrite Hnj in Hd. cbn [andb] in Hd.
  unfold compiler_for in Hd. rewrite Hnj in Hd. fold cpp in Hd.
  assert (Hchoice :
            forall compiler,
              (if cpp
               then if available (world s) "g++" then Some "g++"
                    else if available (world s) "clang++" then Some "clang++"
                         else None
               else if available (world s) "gcc" then Some "gcc"
                    else if available (world s) "clang" then Some "clang"
                         else None) = Some compiler ->
              In compiler (if cpp then ["g++"; "clang++"] else ["gcc"; "clang"])
              /\ compile_cmd_of (normalize language) file_path compiler =
                   ([compiler; Path_str file_path; "-o";
                     _make_executable_path (Path_parent file_path) "a_out_exec"]
                      ++ (if cpp then ["-std=c++17"] else []))%list).
  { intros compiler. unfold compile_cmd_of. rewrite Hnj. fold cpp.
    unfold exe_path_of.
    destruct cpp.
    - destruct (available (world s) "g++");
        [| destruct (available (world s) "clang++")];
        intros [= <-]; simpl; auto.
    - destruct (available (world s) "gcc");
        [| destruct (available (world s) "clang")];
        intros [= <-]; simpl; auto. }
  destruct (if cpp then _ else _) as [compiler |] eqn:Hsel.
  2:{ exfalso.
      assert (Hnil : spawned_by
                (run_linter_for_language file_path language timeout) s = [])
        by (eapply spawned_by_eq; [exact Hd | now rewrite app_nil_r]).
      rewrite Hnil in Hlog. discriminate. }
  destruct (Hchoice compiler eq_refl) as [Hin Hcmd].
  exists compiler. split; [exact Hin |].
  rewrite Hcmd in Hd.
  destruct (run_command (CmdList _) _ _ s) as [r1 s1] eqn:Hcompile.
  apply run_command_list in Hcompile. destruct Hcompile as [Hlog1 _].
  assert (Hhead : exists more, spawned_by
                    (run_linter_for_language file_path language timeout) s =
                    mkPopen (CmdList
                      ([compiler; Path_str file_path; "-o";
                        _make_executable_path (Path_parent file_path) "a_out_exec"]
                         ++ (if cpp then ["-std=c++17"] else []))%list)
                      (Some (Path_parent file_path)) timeout false :: more).
  { destruct r1 as [e | rc].
    { exists []. eapply spawned_by_eq; [exact Hd | exact Hlog1]. }
    destruct (returncode rc =? 0).
    2:{ exists []. eapply spawned_by_eq; [exact Hd | exact Hlog1]. }
    destruct (run_command (CmdList _) _ _ s1) as [r2 s2] eqn:Hexec.
    apply run_command_list in Hexec. destruct Hexec as [Hlog2 _].
    rewrite Hlog1, <- app_assoc in Hlog2.
    eexists. destruct r2 as [e | rr];
      (eapply spawned_by_eq; [exact Hd | exact Hlog2]). }
  destruct Hhead as (more & Hhead). rewrite Hhead in Hlog.
  injection Hlog as <- _. reflexivity.
Qed.

(** X9: in the Python branch, when [python] or else [python3] is found on
    PATH, the one process created is the interpreter, under the path
    that [shutil.which] returned, applied to the file; [pylint] is not
    run and the result is the interpreter's. *)
Theorem python_interpreter_preferred file_path language timeout s :
  PyStr.mem (normalize language) ["python"; "py"] = true ->
  PyStr.truthy (python_in (world s)) = true ->
  let cmd := CmdList [PyStr.or_empty (python_in (world s)); Path_str file_path] in
  run_linter_for_language file_path language timeout s =
    run_command cmd (Some (Path_parent file_path)) timeout s
  /\ spawned_by (run_linter_for_language file_path language timeout) s =
       [mkPopen cmd (Some (Path_parent file_path)) timeout false].
Proof.
  intros Hpy Hfound cmd.
  assert (Hres : run_linter_for_language file_path language timeout s =
                 run_command cmd (Some (Path_parent file_path)) timeout s).
  { rewrite (dispatch_python _ _ _ _ Hpy). cbv zeta. now rewrite Hfound. }
  split; [exact Hres |].
  unfold spawned_by. rewrite Hres, run_command_spawned.
  apply skipn_own_length.
Qed.

End MoreDispatcherFacts.

(** ** The reconstructed command reads back as the argument list *)

Section QuotingFacts.

Context {platform : Platform}.

Lemma append_empty_r (s : string) : s ++ "" = s.
Proof. induction s as [| c s IH]; simpl; [reflexivity | now rewrite IH]. Qed.

Lemma append_assoc (a b c : string) : (a ++ b) ++ c = a ++ (b ++ c).
Proof. induction a as [| x a IH]; simpl; [reflexivity | now rewrite IH]. Qed.

Lemma snoc_append (token : string) (c : ascii) (s : string) :
  shlex.snoc token c ++ s = token ++ String c s.
Proof. unfold shlex.snoc. now rewrite append_assoc. Qed.

(** A character that needs no quoting is no white space, no quote and not
    the escape character. *)
Lemma safe_is_plain c :
  shlex.is_safe c = true ->
  shlex.is_whitespace c = false /\ shlex.is_quote c = false
  /\ Ascii.eqb c shlex.backslash = false.
Proof.
  destruct c as [[] [] [] [] [] [] [] []]; vm_compute; intros H;
    try discriminate H; repeat split.
Qed.

Lemma lex_safe_word s rest token quoted acc :
  shlex.all_safe s = true ->
  shlex.lex (s ++ rest) shlex.Word token quoted acc =
    shlex.lex rest shlex.Word (token ++ s) quoted acc.
Proof.
  revert token. induction s as [| c s IH]; intros token Hsafe.
  - now rewrite append_empty_r.
  - cbn [shlex.all_safe] in Hsafe. apply andb_true_iff in Hsafe.
    destruct Hsafe as [Hc Hs].
    destruct (safe_is_plain c Hc) as (Hws & Hq & Hb).
    cbn [append shlex.lex]. rewrite Hws, Hq, Hb.
    rewrite (IH _ Hs). now rewrite snoc_append.
Qed.

Lemma lex_safe_blank c s rest token quoted acc :
  shlex.all_safe (String c s) = true ->
  shlex.lex (String c s ++ rest) shlex.Blank token quoted acc =
    shlex.lex rest shlex.Word (String c s) quoted acc.
Proof.
  intros Hsafe. cbn [shlex.all_safe] in Hsafe. apply andb_true_iff in Hsafe.
  destruct Hsafe as [Hc Hs].
  destruct (safe_is_plain c Hc) as (Hws & Hq & Hb).
  cbn [append shlex.lex]. rewrite Hws, Hq, Hb.
  now rewrite (lex_safe_word s rest _ quoted acc Hs).
Qed.

(** Inside single quotes the escaped text reads back as the text. *)
Lemma lex_escaped_body s rest token acc :
  shlex.lex (shlex.escape_squotes s ++ String shlex.squote rest)
    (shlex.Quoted shlex.squote) token true acc =
    shlex.lex rest shlex.Word (token ++ s) true acc.
Proof.
  revert token. induction s as [| c s IH]; intros token.
  - rewrite append_empty_r. reflexivity.
  - cbn [shlex.escape_squotes].
    destruct (Ascii.eqb c shlex.squote) eqn:Hc.
    + apply Ascii.eqb_eq in Hc. subst c.
      cbn [append]. cbn -[shlex.escape_squotes append].
      rewrite IH. now rewrite snoc_append.
    + cbn [append shlex.lex]. rewrite Hc.
      replace (Ascii.eqb shlex.squote shlex.dquote) with false by reflexivity.
      rewrite andb_false_r. rewrite IH. now rewrite snoc_append.
Qed.

(** One quoted argument reads back as one token. *)
Lemma lex_quote s rest acc :
  exists quoted,
    (s <> "" \/ quoted = true)
    /\ shlex.lex (shlex.quote s ++ rest) shlex.Blank "" false acc =
         shlex.lex rest shlex.Word s quoted acc.
Proof.
  destruct s as [| c s].
  - exists true. split; [now right | reflexivity].
  - unfold shlex.quote.
    destruct (shlex.all_safe (String c s)) eqn:Hsafe.
    + exists false. split; [left; discriminate |].
      now apply lex_safe_blank.
    + exists true. split; [now right |].
      cbn [append]. rewrite append_assoc. cbn [append].
      cbn [shlex.lex].
      replace (shlex.is_whitespace shlex.squote) with false by reflexivity.
      replace (Ascii.eqb shlex.squote shlex.backslash) with false by reflexivity.
      replace (shlex.is_quote shlex.squote) with true by reflexivity.
      apply lex_escaped_body.
Qed.

Lemma emit_kept s quoted acc :
  s <> "" \/ quoted = true -> shlex.emit s quoted acc = s :: acc.
Proof.
  unfold shlex.emit. intros [Hs | ->]; destruct s; try reflexivity.
  now contradiction Hs.
Qed.

Lemma lex_joined argv acc :
  shlex.lex (PyStr.join " " (map shlex.quote argv)) shlex.Blank "" false acc =
    inr (rev acc ++ argv)%list.
Proof.
  revert acc. induction argv as [| x argv IH]; intros acc.
  - cbn. now rewrite app_nil_r.
  - destruct argv as [| y argv].
    + cbn [map PyStr.join].
      rewrite <- (append_empty_r (shlex.quote x)).
      destruct (lex_quote x "" acc) as (quoted & Hkeep & ->).
      cbn [shlex.lex]. now rewrite (emit_kept _ _ _ Hkeep).
    + change (PyStr.join " " (map shlex.quote (x :: y :: argv)))
        with (shlex.quote x ++ " " ++ PyStr.join " " (map shlex.quote (y :: argv))).
      destruct (lex_quote x (" " ++ PyStr.join " " (map shlex.quote (y :: argv))) acc)
        as (quoted & Hkeep & ->).
      cbn [append shlex.lex].
      replace (shlex.is_whitespace " ") with true by reflexivity.
      rewrite (emit_kept _ _ _ Hkeep), IH.
      cbn [rev]. now rewrite <- app_assoc.
Qed.

(** X10: the command string that the invoker reports for an argument list
    tokenizes back to exactly that list, for every list of arguments
    (empty ones, ones with spaces, quotes or backslashes); so on a host
    whose [os.name] is not [nt], running the reported string is the same
    as running the list. *)
Theorem reported_command_reads_back argv cwd timeout s :
  os_name <> "nt" ->
  shlex.split (PyStr.join " " (map shlex.quote argv)) = inr argv
  /\ run_command (CmdStr (reconstructed (CmdList argv))) cwd timeout s =
       run_command (CmdList argv) cwd timeout s.
Proof.
  intros Hos. apply String.eqb_neq in Hos.
  assert (Hsplit : shlex.split (PyStr.join " " (map shlex.quote argv)) = inr argv)
    by (unfold shlex.split; now rewrite lex_joined).
  split; [exact Hsplit |].
  unfold run_command, run_command_try, reconstructed.
  rewrite Hos, Hsplit. reflexivity.
Qed.

End QuotingFacts.

(** ** Further facts about the HTTP caller *)

Section MoreApiFacts.

Context {platform : Platform} {pathlib : Pathlib} {fs : Filesystem}.

Lemma isspace_lower_char c : PyStr.isspace (PyStr.lower_char c) = PyStr.isspace c.
Proof. destruct c as [[] [] [] [] [] [] [] []]; reflexivity. Qed.

Lemma lower_char_twice c : PyStr.lower_char (PyStr.lower_char c) = PyStr.lower_char c.
Proof. destruct c as [[] [] [] [] [] [] [] []]; reflexivity. Qed.

Lemma lower_twice s : PyStr.lower (PyStr.lower s) = PyStr.lower s.
Proof.
  induction s as [| c s IH]; simpl; [reflexivity |].
  now rewrite lower_char_twice, IH.
Qed.

Lemma lstrip_lower s : PyStr.lstrip (PyStr.lower s) = PyStr.lower (PyStr.lstrip s).
Proof.
  induction s as [| c s IH]; simpl; [reflexivity |].
  rewrite isspace_lower_char. destruct (PyStr.isspace c); [exact IH | reflexivity].
Qed.

Lemma rstrip_lower s : PyStr.rstrip (PyStr.lower s) = PyStr.lower (PyStr.rstrip s).
Proof.
  induction s as [| c s IH]; simpl; [reflexivity |].
  rewrite IH, isspace_lower_char.
  destruct (PyStr.rstrip s); simpl; [| reflexivity].
  destruct (PyStr.isspace c); reflexivity.
Qed.

(** X11: lowering the case of the language, as [run_code] does before it
    calls the dispatcher, never changes the key the dispatcher branches
    on. *)
Theorem lowering_keeps_language_key (l : string) :
  normalize (Some (PyStr.lower l)) = normalize (Some l).
Proof.
  unfold normalize, PyStr.strip. cbn [PyStr.or_empty].
  now rewrite lstrip_lower, rstrip_lower, lower_twice.
Qed.

(** The steps of [run_code] once the directory exists. *)
Lemma run_code_steps req s td w :
  TemporaryDirectory_enter (world s) = (inr td, w) ->
  let file_path := os_path_join td (source_name req) in
  run_code req s =
    match write_text file_path (code req) w with
    | (inl e, w1) =>
        match TemporaryDirectory_exit td w1 with
        | (inl e', w2) => (inl e', mkSys w2 (spawned s))
        | (inr _, w2) => (inl e, mkSys w2 (spawned s))
        end
    | (inr _, w1) =>
        match run_linter_for_language file_path
                (Some (PyStr.lower (language req))) default_timeout
                (mkSys w1 (spawned s)) with
        | (r, s1) =>
            match TemporaryDirectory_exit td (world s1) with
            | (inl e', w2) => (inl e', mkSys w2 (spawned s1))
            | (inr _, w2) =>
                (match r with
                 | inl e => inl e
                 | inr res =>
                     inr (mkRunResponse (stdout res) (stderr res)
                            (returncode res) (executed_cmd res) file_path)
                 end, mkSys w2 (spawned s1))
            end
        end
    end.
Proof.
  intros Henter file_path.
  assert (Hname : PyStr.or_empty
                    (PyStr.or_else (filename req)
                       (Some ("main" ++ dict_get ext_table
                                          (PyStr.lower (language req)) ".txt")))
                  = source_name req).
  { unfold source_name, PyStr.or_else, PyStr.truthy.
    destruct (filename req) as [[| c rest] |]; reflexivity. }
  unfold run_code, with_TemporaryDirectory. rewrite Henter.
  rewrite Hname. fold file_path.
  unfold bind at 1. unfold write_file. cbn [world spawned].
  destruct (write_text file_path (code req) w) as [[e | []] w1].
  - cbn [world spawned]. reflexivity.
  - unfold bind, ret.
    destruct (run_linter_for_language _ _ _ _) as [[e | res] s1]; reflexivity.
Qed.

(** X12: once the temporary directory has been created, [run_code] leaves
    it on every path -- file written or not, dispatcher returned or
    raised -- so the final world is always one produced by removing that
    directory; and if the removal raises, that is what [run_code]
    raises. *)
Theorem run_code_cleans_up req s td w :
  TemporaryDirectory_enter (world s) = (inr td, w) ->
  exists w_last,
    world (snd (run_code req s)) = snd (TemporaryDirectory_exit td w_last)
    /\ forall e, fst (TemporaryDirectory_exit td w_last) = inl e ->
                 fst (run_code req s) = inl e.
Proof.
  intros Henter. rewrite (run_code_steps req s td w Henter). cbv zeta.
  destruct (write_text _ _ w) as [[e | u] w1].
  - exists w1. destruct (TemporaryDirectory_exit td w1) as [[e' | u'] w2];
      cbn; split; try reflexivity; intros e0 H; congruence.
  - destruct (run_linter_for_language _ _ _ _) as [r s1].
    exists (world s1).
    destruct (TemporaryDirectory_exit td (world s1)) as [[e' | u'] w2];
      cbn; split; try reflexivity; intros e0 H; congruence.
Qed.

(** X13: when the source file cannot be written, [run_code] creates no
    process and raises: the dispatcher is never entered. *)
Theorem run_code_write_failure req s td w e w1 :
  TemporaryDirectory_enter (world s) = (inr td, w) ->
  write_text (os_path_join td (source_name req)) (code req) w = (inl e, w1) ->
  spawned_by (run_code req) s = []
  /\ exists e', fst (run_code req s) = inl e'.
Proof.
  intros Henter Hwrite. unfold spawned_by.
  rewrite (run_code_steps req s td w Henter). cbv zeta. rewrite Hwrite.
  destruct (TemporaryDirectory_exit td w1) as [[e' | u'] w2]; cbn;
    (split; [rewrite <- (app_nil_r (spawned s)) at 2; apply skipn_own_length
            | eexists; reflexivity]).
Qed.

(** X14: [run_code] returns a response exactly when the temporary
    directory was created, the source was written to [os.path.join] of
    the directory and the file name (an empty name counts as absent), the
    dispatcher, called on that path with the lowered language and the
    timeout 30, returned a result, and the directory was removed; the
    response then carries the dispatcher's stdout, stderr, return code
    and executed command unchanged -- also the return codes 124 and 125 --
    and that path as used file name. *)
Theorem run_code_response req s resp s' :
  run_code req s = (inr resp, s') <->
  exists td w w1 res s1 w2,
    let file_path := os_path_join td (source_name req) in
    TemporaryDirectory_enter (world s) = (inr td, w)
    /\ write_text file_path (code req) w = (inr tt, w1)
    /\ run_linter_for_language file_path
         (Some (PyStr.lower (language req))) 30 (mkSys w1 (spawned s))
       = (inr res, s1)
    /\ TemporaryDirectory_exit td (world s1) = (inr tt, w2)
    /\ resp = mkRunResponse (stdout res) (stderr res) (returncode res)
                (executed_cmd res) file_path
    /\ s' = mkSys w2 (spawned s1).
Proof.
  split.
  - intros Hrun.
    destruct (TemporaryDirectory_enter (world s)) as [[e | td] w] eqn:Henter.
    { unfold run_code, with_TemporaryDirectory in Hrun. rewrite Henter in Hrun.
      discriminate. }
    rewrite (run_code_steps req s td w Henter) in Hrun. cbv zeta in Hrun.
    destruct (write_text _ _ w) as [[e | []] w1] eqn:Hwrite.
    { destruct (TemporaryDirectory_exit td w1) as [[e' | u'] w2]; discriminate. }
    destruct (run_linter_for_language _ _ _ _) as [r s1] eqn:Hdisp.
    destruct (TemporaryDirectory_exit td (world s1)) as [[e' | []] w2] eqn:Hexit;
      [discriminate |].
    destruct r as [e | res]; [discriminate |].
    injection Hrun as <- <-.
    exists td, w, w1, res, s1, w2. cbv zeta. repeat split; assumption.
  - intros (td & w & w1 & res & s1 & w2 & Henter & Hwrite & Hdisp & Hexit & -> & ->).
    rewrite (run_code_steps req s td w Henter). cbv zeta.
    rewrite Hwrite. unfold default_timeout. rewrite Hdisp, Hexit. reflexivity.
Qed.

End MoreApiFacts.

(** ** The normal form of an AI answer ([ws.py]) *)

Section NormalizeFacts.

Context {json : Json}.

Lemma filter_twice {A} (f : A -> bool) (l : list A) :
  filter f (filter f l) = filter f l.
Proof.
  induction l as [| x l IH]; simpl; [reflexivity |].
  destruct (f x) eqn:Hx; simpl; [rewrite Hx, IH |]; auto.
Qed.

Lemma normalize_dict_twice d :
  Ws.normalize_dict (Ws.normalize_dict d) = Ws.normalize_dict d.
Proof.
  unfold Ws.normalize_dict. simpl. now rewrite filter_twice.
Qed.

(** The result of [_normalize_ai_response] is always a normalized
    dictionary. *)
Lemma normalized_shape x :
  exists d, Ws._normalize_ai_response x = PDict d
            /\ Ws.normalize_dict d = d.
Proof.
  assert (Hraw : forall t, Ws.normalize_dict (Ws.raw_text t) = Ws.raw_text t)
    by reflexivity.
  unfold Ws._normalize_ai_response.
  destruct x as [| b | n | r | text | items | d | cls attrs];
    try (eexists; split; [reflexivity | apply Hraw]).
  - destruct (json_loads text) as [[| b | n | r | t | items | d | cls attrs] |];
      try (eexists; split; [reflexivity | apply Hraw]).
    + eexists; split; [reflexivity | apply normalize_dict_twice].
    + destruct (Ws.brace_span text) as [inner |];
        [| eexists; split; [reflexivity | apply Hraw]].
      destruct (json_loads inner) as [[| b | n | r | t | items | d | cls attrs] |];
        try (eexists; split; [reflexivity | apply Hraw]).
      eexists; split; [reflexivity | apply normalize_dict_twice].
  - eexists; split; [reflexivity | apply normalize_dict_twice].
Qed.

(** X15: whatever the AI client returned -- a dictionary, a string that
    is or contains JSON, plain text, anything else -- the normalized
    answer is a dictionary in which [summary], [root_cause], [fix] and
    [patch] are all present and are all strings. *)
Theorem normalized_has_schema x key :
  In key Ws.schema_keys ->
  exists d text,
    Ws._normalize_ai_response x = PDict d /\ Ws.get d key = Some (PStr text).
Proof.
  intros Hkey. destruct (normalized_shape x) as (d & Hx & Hd).
  exists d. rewrite Hx, <- Hd.
  simpl in Hkey.
  destruct Hkey as [<- | [<- | [<- | [<- | []]]]];
    eexists; (split; [reflexivity |]); reflexivity.
Qed.

(** X16: normalizing is idempotent: an answer that has been normalized
    is left as it is by a second normalization. *)
Theorem normalize_idempotent x :
  Ws._normalize_ai_response (Ws._normalize_ai_response x) =
    Ws._normalize_ai_response x.
Proof.
  destruct (normalized_shape x) as (d & -> & Hd).
  cbn [Ws._normalize_ai_response]. now rewrite Hd.
Qed.

Lemma get_filter_extra d key :
  PyStr.mem key Ws.schema_keys = false ->
  Ws.get (filter Ws.is_extra d) key = Ws.get d key.
Proof.
  intros Hkey. induction d as [| [k v] d IH]; [reflexivity |].
  cbn [filter Ws.get]. unfold Ws.is_extra at 1. cbn [fst].
  destruct (PyStr.mem k Ws.schema_keys) eqn:Hk; cbn [negb].
  - destruct (k =? key)%string eqn:Heq; [| exact IH].
    apply String.eqb_eq in Heq. congruence.
  - cbn [Ws.get]. now rewrite IH.
Qed.

(** X17: a dictionary answer keeps every item outside the four schema
    keys, with its value, whatever the value is; a schema key whose value
    is not a string is replaced by the empty string. *)
Theorem normalize_dict_keeps_extras d key :
  PyStr.mem key Ws.schema_keys = false ->
  exists d',
    Ws._normalize_ai_response (PDict d) = PDict d'
    /\ Ws.get d' key = Ws.get d key
    /\ forall k, In k Ws.schema_keys ->
         Ws.get d' k = Some (PStr (match Ws.get d k with
                                   | Some (PStr text) => text
                                   | _ => ""
                                   end)).
Proof.
  intros Hkey. eexists. split; [reflexivity |]. split.
  - unfold Ws.normalize_dict.
    assert (Hne : forall k, In k Ws.schema_keys -> (k =? key)%string = false).
    { intros k Hk. apply String.eqb_neq. intros ->.
      unfold PyStr.mem in Hkey.
      assert (Hex : existsb (String.eqb key) Ws.schema_keys = true)
        by (apply existsb_exists; exists key; split;
            [exact Hk | apply String.eqb_refl]).
      congruence. }
    cbn [app Ws.get].
    rewrite !Hne by (simpl; auto 6).
    apply get_filter_extra, Hkey.
  - intros k Hk. simpl in Hk.
    destruct Hk as [<- | [<- | [<- | [<- | []]]]]; reflexivity.
Qed.

(** X18: a string answer that is valid JSON but not an object (a list, a
    number, a quoted string, ...) is not searched for an embedded object:
    it is returned as raw text in [root_cause], with the other three
    fields empty. *)
Theorem normalize_non_object_json text v :
  json_loads text = Some v ->
  (forall d, v <> PDict d) ->
  Ws._normalize_ai_response (PStr text) =
    PDict [("summary", PStr ""); ("root_cause", PStr text);
           ("fix", PStr ""); ("patch", PStr "")].
Proof.
  intros Hload Hnot. unfold Ws._normalize_ai_response. rewrite Hload.
  destruct v; try reflexivity. now contradiction (Hnot items).
Qed.

End NormalizeFacts.

(** ** The search for an embedded JSON object, and the code preview *)

Section SpanFacts.

Lemma length_append (a b : string) :
  String.length (a ++ b) = (String.length a + String.length b)%nat.
Proof. induction a as [| c a IH]; simpl; [reflexivity | now rewrite IH]. Qed.

Lemma substring_skip (pre t : string) (n : nat) :
  substring (String.length pre) n (pre ++ t) = substring 0 n t.
Proof. induction pre as [| c pre IH]; simpl; [reflexivity | exact IH]. Qed.

Lemma substring_prefix (a b : string) :
  substring 0 (String.length a) (a ++ b) = a.
Proof.
  induction a as [| c a IH]; simpl.
  - destruct b; reflexivity.
  - now rewrite IH.
Qed.

Lemma substring_all (a : string) : substring 0 (String.length a) a = a.
Proof. induction a as [| c a IH]; simpl; [reflexivity | now rewrite IH]. Qed.

Lemma find_char_split c s i :
  Ws.find_char c s = Some i ->
  exists pre rest,
    s = pre ++ String c rest /\ String.length pre = i
    /\ Ws.find_char c pre = None.
Proof.
  revert i. induction s as [| x s IH]; intros i; simpl; [discriminate |].
  destruct (Ascii.eqb x c) eqn:Hx.
  - intros [= <-]. apply Ascii.eqb_eq in Hx. subst x.
    exists "", s. repeat split.
  - destruct (Ws.find_char c s) as [k |]; [| discriminate].
    intros [= <-]. destruct (IH k eq_refl) as (pre & rest & -> & Hlen & Hnone).
    exists (String x pre), rest. simpl. rewrite Hx, Hnone, Hlen. repeat split.
Qed.

Lemma rfind_char_split c s j :
  Ws.rfind_char c s = Some j ->
  exists body post,
    s = body ++ String c post /\ String.length body = j
    /\ Ws.rfind_char c post = None.
Proof.
  revert j. induction s as [| x s IH]; intros j; simpl; [discriminate |].
  destruct (Ws.rfind_char c s) as [k |] eqn:Hs.
  - intros [= <-]. destruct (IH k eq_refl) as (body & post & -> & Hlen & Hnone).
    exists (String x body), post. simpl. rewrite Hlen. repeat split. exact Hnone.
  - destruct (Ascii.eqb x c) eqn:Hx; [| discriminate].
    intros [= <-]. apply Ascii.eqb_eq in Hx. subst x.
    exists "", s. repeat split. exact Hs.
Qed.

Lemma find_char_none_append c a b :
  Ws.find_char c (a ++ String c b) <> None.
Proof.
  induction a as [| x a IH]; simpl.
  - rewrite Ascii.eqb_refl. discriminate.
  - destruct (Ascii.eqb x c); [discriminate |].
    destruct (Ws.find_char c (a ++ String c b)); [discriminate | exact IH].
Qed.

Lemma rfind_char_none_append c a b :
  Ws.rfind_char c (a ++ String c b) <> None.
Proof.
  induction a as [| x a IH]; simpl.
  - destruct (Ws.rfind_char c b); [discriminate |].
    rewrite Ascii.eqb_refl. discriminate.
  - destruct (Ws.rfind_char c (a ++ String c b)); [discriminate |].
    exfalso. now apply IH.
Qed.

(** What follows the first occurrence of a character contains what
    follows any occurrence. *)
Lemma after_first_occurrence c pre rest a b :
  Ws.find_char c pre = None ->
  pre ++ String c rest = a ++ String c b ->
  exists u, rest = u ++ b.
Proof.
  revert a. induction pre as [| x pre IH]; intros a Hnone Heq.
  - destruct a as [| y a]; simpl in Heq.
    + injection Heq as ->. now exists "".
    + injection Heq as _ ->. now exists (a ++ String c "");
        rewrite append_assoc.
  - simpl in Hnone. destruct (Ascii.eqb x c) eqn:Hx; [discriminate |].
    destruct (Ws.find_char c pre) eqn:Hpre; [discriminate |].
    destruct a as [| y a]; simpl in Heq.
    + injection Heq as -> _. now rewrite Ascii.eqb_refl in Hx.
    + injection Heq as _ Heq. exact (IH a eq_refl Heq).
Qed.

(** X19: the search for an embedded JSON object returns the text from the
    first opening brace of the string to its last closing brace, and it
    finds nothing exactly when no opening brace is followed by a closing
    one. *)
Theorem brace_span_first_to_last s :
  match Ws.brace_span s with
  | Some inner =>
      exists pre body post,
        s = pre ++ inner ++ post
        /\ inner = "{" ++ body ++ "}"
        /\ Ws.find_char "{" pre = None
        /\ Ws.rfind_char "}" post = None
  | None =>
      forall pre body post, s <> pre ++ "{" ++ body ++ "}" ++ post
  end.
Proof.
  unfold Ws.brace_span.
  destruct (Ws.find_char "{" s) as [i |] eqn:Hfind.
  - destruct (find_char_split _ _ _ Hfind) as (pre & rest & -> & Hlen & Hpre).
    assert (Htail : substring (S i) (String.length (pre ++ String "{" rest) - S i)
                      (pre ++ String "{" rest) = rest).
    { rewrite length_append, <- Hlen. cbn [String.length].
      replace (String.length pre + S (String.length rest) - S (String.length pre))%nat
        with (String.length rest) by lia.
      change (S (String.length pre)) with (String.length (String "{" pre)).
      replace (pre ++ String "{" rest) with ((pre ++ "{") ++ rest)
        by (now rewrite append_assoc).
      replace (String.length (String "{" pre)) with (String.length (pre ++ "{"))
        by (rewrite length_append; simpl; lia).
      rewrite substring_skip. apply substring_all. }
    rewrite Htail.
    destruct (Ws.rfind_char "}" rest) as [j |] eqn:Hlast.
    + destruct (rfind_char_split _ _ _ Hlast) as (body & post & -> & Hj & Hpost).
      assert (Hinner : substring i (S (S j))
                         (pre ++ String "{" (body ++ String "}" post))
                       = "{" ++ body ++ "}").
      { rewrite <- Hlen, substring_skip, <- Hj.
        replace (String "{" (body ++ String "}" post))
          with (("{" ++ body ++ "}") ++ post)
          by (cbn [append]; now rewrite append_assoc).
        replace (S (S (String.length body)))
          with (String.length ("{" ++ body ++ "}"))
          by (cbn [append String.length]; rewrite length_append; simpl; lia).
        apply substring_prefix. }
      rewrite Hinner. exists pre, body, post.
      split; [| split; [reflexivity | split; assumption]].
      cbn [append]. now rewrite append_assoc.
    + intros pre' body post Heq.
      destruct (after_first_occurrence "{" pre rest pre' (body ++ "}" ++ post)
                  Hpre Heq) as (u & Hu).
      apply (rfind_char_none_append "}" (u ++ body) post).
      rewrite append_assoc. cbn [append] in Hu. now rewrite <- Hu.
  - intros pre body post Heq.
    apply (find_char_none_append "{" pre (body ++ "}" ++ post)).
    cbn [append] in Heq |- *. now rewrite <- Heq.
Qed.

Lemma length_substring_0 n s :
  String.length (substring 0 n s) = Nat.min n (String.length s).
Proof.
  revert s. induction n as [| n IH]; intros [| c s]; simpl; try reflexivity.
  now rewrite IH.
Qed.

Lemma substring_0_prefix n s :
  exists cut, s = substring 0 n s ++ cut.
Proof.
  revert s. induction n as [| n IH]; intros [| c s]; simpl.
  - now exists "".
  - now exists (String c s).
  - now exists "".
  - destruct (IH s) as (cut & Hcut). exists cut. now rewrite <- Hcut.
Qed.

(** X20: the code preview put into the prompt is the code itself when it
    is shorter than 8000 characters; otherwise it is the first 8000
    characters followed by a line break and "...<truncated>", so it is
    never longer than 8015 characters -- and a code of exactly 8000
    characters gets the mark although nothing was cut. *)
Theorem code_preview_bounds text :
  exists preview,
    Ws.code_preview (Some text) = Some preview
    /\ (String.length preview <= Ws.preview_limit + 15)%nat
    /\ ((String.length text < Ws.preview_limit)%nat -> preview = text)
    /\ ((Ws.preview_limit <= String.length text)%nat ->
        exists cut,
          text = substring 0 Ws.preview_limit text ++ cut
          /\ preview = substring 0 Ws.preview_limit text ++ Ws.truncation_mark)
    /\ (String.length text = Ws.preview_limit ->
        preview = text ++ Ws.truncation_mark).
Proof.
  unfold Ws.code_preview.
  generalize Ws.preview_limit as limit. intros limit.
  destruct (String.length text <? limit)%nat eqn:Hshort.
  - apply Nat.ltb_lt in Hshort. exists text. repeat split; try lia.
  - apply Nat.ltb_ge in Hshort. eexists. split; [reflexivity |].
    split; [| split; [| split]].
    + rewrite length_append, length_substring_0.
      change (String.length Ws.truncation_mark) with 15%nat. lia.
    + lia.
    + intros _. destruct (substring_0_prefix limit text) as (cut & Hcut).
      exists cut. split; [exact Hcut | reflexivity].
    + intros <-. now rewrite substring_all.
Qed.

End SpanFacts.

(** ** The history file *)

Section HistoryFacts.

Context {json : Json} {file : HistoryFile}.



(** X23: when the history file holds valid JSON that is not a list (an
    object, a number, ...), [save_history] raises the [AttributeError] of
    the missing [append] method and writes nothing: the store is left as
    it was. *)
Theorem save_history_not_a_list entry st text data :
  history_exists st = true ->
  history_read_text st = inr text ->
  json_loads text = Some data ->
  (forall items, data <> PList items) ->
  Db.save_history entry st =
    (inl (OtherException
            ("'" ++ Db.type_name data ++ "' object has no attribute 'append'")),
     st).
Proof.
  intros Hexists Hread Hparse Hnot. unfold Db.save_history, Db.load_history.
  rewrite Hexists, Hread, Hparse.
  destruct data; try reflexivity. now contradiction (Hnot items).
Qed.

End HistoryFacts.

(** ** The AI client *)

Section GroqFacts.

Context {json : Json} {host : GroqHost}.

(** X24: when the first choice of a response carries a message --
    a dictionary or an instance -- whose content is true (a non-empty
    string, say), the extracted content is exactly that content; the
    choice's [text] and the top-level fields are not consulted. *)
Theorem extract_message_content cls attrs choices choice0 msg content :
  Ws.get attrs "choices" = Some choices ->
  GroqClient.first_item choices = Some choice0 ->
  GroqClient.getattr choice0 "message" = Some msg ->
  GroqVocabulary.message_content msg = Some content ->
  GroqClient.truthy content = true ->
  GroqClient._extract_content_from_resp (PObject cls attrs) = content.
Proof.
  intros Hchoices Hfirst Hmsg Hcontent Htrue.
  unfold GroqClient._extract_content_from_resp, GroqClient.from_first_choice.
  rewrite Hchoices, Hfirst, Hmsg.
  destruct msg as [| b | n | r | text | items | d | mcls mattrs];
    try (cbn in Hcontent; discriminate).
  - cbn in Hcontent. rewrite Hcontent. cbn [GroqClient.or_blank].
    now rewrite Htrue.
  - cbn [GroqClient.truthy]. cbn [GroqVocabulary.message_content] in Hcontent.
    now rewrite Hcontent, Htrue.
Qed.

(** X25: when nothing can be extracted the result is [str(resp)], not
    the empty string: so it is for a completion whose message content is
    empty or [None] and that has no other field, and so it is for every
    response that is not an instance, a dictionary included. *)
Theorem extract_falls_back_to_str :
  (forall content,
      GroqClient.truthy content = false ->
      GroqClient._extract_content_from_resp (GroqVocabulary.completion content)
      = PStr (py_str (GroqVocabulary.completion content)))
  /\ (forall resp,
         (forall cls attrs, resp <> PObject cls attrs) ->
         GroqClient._extract_content_from_resp resp = PStr (py_str resp)).
Proof.
  split.
  - intros content Hfalse.
    unfold GroqClient._extract_content_from_resp, GroqVocabulary.completion.
    cbn -[GroqClient.truthy py_str].
    destruct content; cbn -[py_str] in *; try rewrite Hfalse;
      try reflexivity; discriminate.
  - intros resp Hnot.
    destruct resp; try reflexivity. now contradiction (Hnot cls attrs).
Qed.

(** X26: for a content that is a string, [ask_groq_json] answers either
    with that very string or with a dictionary that has at least one of
    the four schema keys and that was parsed from the whole string or,
    only if the whole string is not JSON, from its brace span. *)
Theorem answer_is_text_or_schema_dict text :
  GroqClient.answer_of (PStr text) = PStr text
  \/ exists d,
       GroqClient.answer_of (PStr text) = PDict d
       /\ GroqClient.has_schema_key d = true
       /\ (json_loads text = Some (PDict d)
           \/ (json_loads text = None
               /\ exists inner, Ws.brace_span text = Some inner
                                /\ json_loads inner = Some (PDict d))).
Proof.
  unfold GroqClient.answer_of.
  destruct text as [| c rest]; [now left |].
  assert (Hraw : (if GroqClient.truthy (PStr (String c rest))
                  then PStr (String c rest) else PStr "")
                 = PStr (String c rest)) by reflexivity.
  rewrite Hraw.
  destruct (json_loads (String c rest)) as [parsed |] eqn:Hload.
  - unfold GroqClient.accepted.
    destruct parsed; try now left.
    destruct (GroqClient.has_schema_key items) eqn:Hkey; [| now left].
    right. exists items. auto.
  - destruct (Ws.brace_span (String c rest)) as [inner |] eqn:Hspan;
      [| now left].
    unfold GroqClient.accepted.
    destruct (json_loads inner) as [[] |] eqn:Hinner; try now left.
    destruct (GroqClient.has_schema_key items) eqn:Hkey; [| now left].
    right. exists items. split; [reflexivity |]. split; [exact Hkey |].
    right. split; [reflexivity |]. now exists inner.
Qed.

(** Without a non-empty [GROQ_API_KEY], [ask_groq_json] raises the
    [RuntimeError] that names the [.env] path, makes no completion call
    and leaves the world as it was. *)
Lemma ask_without_api_key prompt model max_tokens s :
  getenv_GROQ_API_KEY (GroqClient.gworld s) = None
  \/ getenv_GROQ_API_KEY (GroqClient.gworld s) = Some "" ->
  GroqClient.ask_groq_json prompt model max_tokens s =
    (inl (GroqClient.RuntimeError
            ("GROQ_API_KEY not set in environment. Tried to read from env and "
               ++ _dotenv_path
               ++ ". Make sure .env contains: GROQ_API_KEY=YOUR_KEY and restart the server.")),
     s).
Proof.
  unfold GroqClient.ask_groq_json, GroqClient.create_client.
  intros [-> | ->]; reflexivity.
Qed.

(** X27: [ask_groq_json] makes at most one completion call, with the
    system instruction first and the user's prompt second; and the only
    [Exception] it raises is a [RuntimeError] (an interrupt passes
    unchanged), whose text starts with "Groq API error: " when the call
    itself failed. *)
Theorem ask_calls_once prompt model max_tokens s :
  let out := GroqClient.ask_groq_json prompt model max_tokens s in
  let request :=
    mkChatRequest model
      [("system", GroqClient.SYSTEM_JSON_INSTRUCTION); ("user", prompt)]
      max_tokens in
  (GroqClient.requested (snd out) = GroqClient.requested s
   \/ GroqClient.requested (snd out) = (GroqClient.requested s ++ [request])%list)
  /\ (forall e, fst out = inl e ->
        is_Exception e = false \/ exists msg, e = GroqClient.RuntimeError msg)
  /\ (forall client e w,
        GroqClient.create_client s = inr client ->
        completions_create client request (GroqClient.gworld s) = (inl e, w) ->
        is_Exception e = true ->
        fst out = inl (GroqClient.RuntimeError ("Groq API error: " ++ exn_str e))).
Proof.
  cbv zeta. unfold GroqClient.ask_groq_json.
  destruct (GroqClient.create_client s) as [e0 | client] eqn:Hclient.
  - split; [now left |]. split.
    + intros e [= <-]. unfold GroqClient.create_client in Hclient.
      destruct (getenv_GROQ_API_KEY (GroqClient.gworld s)) as [[| c key] |];
        try (injection Hclient as <-; right; eexists; reflexivity).
      destruct (negb Groq_imported);
        [injection Hclient as <-; right; eexists; reflexivity |].
      destruct (Groq_new _ _) as [e1 | cl]; [| discriminate].
      destruct (is_Exception e1) eqn:Hexc; injection Hclient as <-;
        [right; eexists; reflexivity | now left].
    + intros client e w Hc. discriminate.
  - destruct (completions_create client _ (GroqClient.gworld s)) as [[e1 | resp] w1] eqn:Hcall.
    + split; [destruct (is_Exception e1); now right |]. split.
      * intros e. destruct (is_Exception e1) eqn:Hexc; cbn; intros [= <-];
          [right; eexists; reflexivity | now left].
      * intros client' e w [= <-]. rewrite Hcall. intros [= <- _] Hexc.
        now rewrite Hexc.
    + split; [now right |]. split.
      * intros e. cbn. discriminate.
      * intros client' e w [= <-]. rewrite Hcall. discriminate.
Qed.

End GroqFacts.

(** ** The diagnosis endpoints *)

Section EndpointFacts.

Context {json : Json} {host : GroqHost} {socket : Socket}.

(** [ask_groq_json] makes no completion call or the one call with the
    system instruction and the prompt. *)
Lemma ask_requests prompt model max_tokens s :
  let out := GroqClient.ask_groq_json prompt model max_tokens s in
  GroqClient.requested (snd out) = GroqClient.requested s
  \/ GroqClient.requested (snd out) =
       (GroqClient.requested s ++
          [mkChatRequest model
             [("system", GroqClient.SYSTEM_JSON_INSTRUCTION); ("user", prompt)]
             max_tokens])%list.
Proof.
  cbv zeta. unfold GroqClient.ask_groq_json.
  destruct (GroqClient.create_client s) as [e | client]; [now left |].
  destruct (completions_create client _ (GroqClient.gworld s)) as [[e | resp] w].
  - destruct (is_Exception e); now right.
  - now right.
Qed.

(** X28: [POST /diagnose] asks the AI client once, with the system
    instruction and the prompt built from the request.  When the
    completion call returns, the answer is [{"diagnosis": a}] where [a]
    is what [ask_groq_json] makes of the extracted content; when it
    raises an [Exception], the answer is HTTP 500 with the detail
    "Groq API error: <text of the exception>"; when the client cannot be
    created, it is HTTP 500 with the text of that error and no call is
    made -- for a missing or empty [GROQ_API_KEY], the text that names the
    [.env] path.  Only what is not an [Exception] goes through
    unhandled. *)
Theorem diagnose_outcomes req s :
  let request :=
    mkChatRequest GroqClient.default_model
      [("system", GroqClient.SYSTEM_JSON_INSTRUCTION);
       ("user", Diagnose.prompt req)]
      GroqClient.default_max_tokens in
  (forall client,
      GroqClient.create_client s = inr client ->
      match completions_create client request (GroqClient.gworld s) with
      | (inr resp, w) =>
          Diagnose.diagnose req s =
            (Responded
               (PDict [("diagnosis",
                        GroqClient.answer_of
                          (GroqClient._extract_content_from_resp resp))]),
             GroqClient.mkGSys w (GroqClient.requested s ++ [request]))
      | (inl e, w) =>
          Diagnose.diagnose req s =
            (if is_Exception e
             then HTTPException 500 ("Groq API error: " ++ exn_str e)
             else Unhandled e,
             GroqClient.mkGSys w (GroqClient.requested s ++ [request]))
      end)
  /\ (forall e,
        GroqClient.create_client s = inl e ->
        Diagnose.diagnose req s =
          (if is_Exception e then HTTPException 500 (exn_str e) else Unhandled e,
           s))
  /\ (getenv_GROQ_API_KEY (GroqClient.gworld s) = None
      \/ getenv_GROQ_API_KEY (GroqClient.gworld s) = Some "" ->
      Diagnose.diagnose req s =
        (HTTPException 500
           ("GROQ_API_KEY not set in environment. Tried to read from env and "
              ++ _dotenv_path
              ++ ". Make sure .env contains: GROQ_API_KEY=YOUR_KEY and restart the server."),
         s))
  /\ (forall e, fst (Diagnose.diagnose req s) = Unhandled e ->
                is_Exception e = false).
Proof.
  cbv zeta. split; [| split; [| split]].
  - intros client Hclient.
    unfold Diagnose.diagnose, GroqClient.ask_groq_json. rewrite Hclient.
    destruct (completions_create client _ (GroqClient.gworld s))
      as [[e | resp] w]; [| reflexivity].
    destruct (is_Exception e) eqn:Hexc; [reflexivity |].
    now rewrite Hexc.
  - intros e Hclient.
    unfold Diagnose.diagnose, GroqClient.ask_groq_json. rewrite Hclient.
    destruct (is_Exception e); reflexivity.
  - intros Hkey. unfold Diagnose.diagnose.
    now rewrite (ask_without_api_key _ _ _ s Hkey).
  - unfold Diagnose.diagnose.
    destruct (GroqClient.ask_groq_json _ _ _ s) as [[e | res] s'].
    + destruct (is_Exception e) eqn:Hexc; cbn; [discriminate |].
      intros e0 [= <-]. exact Hexc.
    + cbn. discriminate.
Qed.

(** Sending adds the message to the socket log and calls no AI. *)
Lemma send_log msg s :
  GroqClient.requested (WsLoop.ai (snd (WsLoop.send msg s)))
  = GroqClient.requested (WsLoop.ai s)
  /\ WsLoop.sent (snd (WsLoop.send msg s)) = (WsLoop.sent s ++ [msg])%list.
Proof.
  unfold WsLoop.send. destruct (send_json _ _) as [r w]. split; reflexivity.
Qed.

(** X29: a received text that is not JSON, or is an object whose [type]
    is [ping] or anything but [diagnose], is answered by exactly one
    message (the error "Invalid JSON request", a [pong], the error
    "Unsupported message type; expected 'diagnose'.") and the loop
    continues; a JSON value that is not an object ends the handler with
    the [AttributeError] of the missing [get], unanswered.  In none of
    these cases is the AI client called. *)
Theorem turn_without_diagnosis data_raw s :
  match json_loads data_raw with
  | None =>
      fst (WsLoop.handle_text data_raw s) = Continue
      /\ WsLoop.sent (snd (WsLoop.handle_text data_raw s)) =
           (WsLoop.sent s ++ [WsLoop.error_message "Invalid JSON request"])%list
      /\ GroqClient.requested (WsLoop.ai (snd (WsLoop.handle_text data_raw s)))
         = GroqClient.requested (WsLoop.ai s)
  | Some (PDict data) =>
      WsLoop.type_is data "diagnose" = false ->
      fst (WsLoop.handle_text data_raw s) = Continue
      /\ WsLoop.sent (snd (WsLoop.handle_text data_raw s)) =
           (WsLoop.sent s ++
              [if WsLoop.type_is data "ping" then PDict [("type", PStr "pong")]
               else WsLoop.error_message
                      "Unsupported message type; expected 'diagnose'."])%list
      /\ GroqClient.requested (WsLoop.ai (snd (WsLoop.handle_text data_raw s)))
         = GroqClient.requested (WsLoop.ai s)
  | Some other =>
      WsLoop.handle_text data_raw s =
        (Raised (OtherException
                   ("'" ++ Db.type_name other ++ "' object has no attribute 'get'")),
         s)
  end.
Proof.
  unfold WsLoop.handle_text.
  destruct (json_loads data_raw) as [[| b | n | r | t | items | data | cls attrs] |];
    try reflexivity.
  - intros Hnot. rewrite Hnot. cbn [negb].
    destruct (WsLoop.type_is data "ping");
      unfold WsLoop.try_send, WsLoop.send;
      destruct (send_json _ _) as [r w]; repeat split.
  - unfold WsLoop.try_send, WsLoop.send.
    destruct (send_json _ _) as [r w]. repeat split.
Qed.

(** X30: a turn for a [diagnose] message.  When taking the preview of
    the code raises, that exception ends the handler and nothing is asked
    or sent.  Otherwise the AI client is asked once with the prompt built
    from the message, and no other call is made.  When the client returns
    an answer, the normal form of that answer is sent as the diagnosis:
    the loop continues if it was delivered, breaks if the peer is gone,
    and after any other failure sends the error "Failed to send
    diagnosis" and continues.  When the client raises an [Exception], the
    error "AI error: <text of that exception>" is the one message sent
    and the loop continues; anything else the client raises ends the
    handler with nothing sent. *)
Theorem diagnose_turn data_raw data s :
  json_loads data_raw = Some (PDict data) ->
  WsLoop.type_is data "diagnose" = true ->
  let out := WsLoop.handle_text data_raw s in
  match WsLoop.preview (WsLoop.get_default data "code" (PStr "")) with
  | inl e => out = (Raised e, s)
  | inr code_preview =>
      let request :=
        mkChatRequest GroqClient.default_model
          [("system", GroqClient.SYSTEM_JSON_INSTRUCTION);
           ("user", WsLoop.prompt data code_preview)]
          GroqClient.default_max_tokens in
      let asked :=
        GroqClient.ask_groq_json (WsLoop.prompt data code_preview)
          GroqClient.default_model GroqClient.default_max_tokens (WsLoop.ai s) in
      let ai' := snd asked in
      (GroqClient.requested ai' = GroqClient.requested (WsLoop.ai s)
       \/ GroqClient.requested ai' =
            (GroqClient.requested (WsLoop.ai s) ++ [request])%list)
      /\ GroqClient.requested (WsLoop.ai (snd out)) = GroqClient.requested ai'
      /\ match fst asked with
         | inr answer =>
             let diagnosis :=
               PDict [("type", PStr "diagnosis");
                      ("diagnosis", Ws._normalize_ai_response answer)] in
             match fst (send_json diagnosis (GroqClient.gworld ai')) with
             | inr _ =>
                 fst out = Continue
                 /\ WsLoop.sent (snd out) = (WsLoop.sent s ++ [diagnosis])%list
             | inl WebSocketDisconnect =>
                 fst out = Break
                 /\ WsLoop.sent (snd out) = (WsLoop.sent s ++ [diagnosis])%list
             | inl (SendError _) =>
                 fst out = Continue
                 /\ WsLoop.sent (snd out) =
                      (WsLoop.sent s ++
                         [diagnosis;
                          WsLoop.error_message "Failed to send diagnosis"])%list
             end
         | inl e =>
             if is_Exception e then
               fst out = Continue
               /\ WsLoop.sent (snd out) =
                    (WsLoop.sent s ++
                       [WsLoop.error_message ("AI error: " ++ exn_str e)])%list
             else out = (Raised e, WsLoop.mkWsSys ai' (WsLoop.sent s))
         end
  end.
Proof.
  intros Hload Htype. cbv zeta.
  unfold WsLoop.handle_text. rewrite Hload.
  assert (Hping : WsLoop.type_is data "ping" = false).
  { unfold WsLoop.type_is in *.
    destruct (Ws.get data "type") as [[| | | | t | | |] |]; try discriminate.
    apply String.eqb_eq in Htype. now subst t. }
  rewrite Hping, Htype. cbn [negb].
  destruct (WsLoop.preview (WsLoop.get_default data "code" (PStr "")))
    as [e | code_preview]; [reflexivity |].
  pose proof (ask_requests (WsLoop.prompt data code_preview)
                GroqClient.default_model GroqClient.default_max_tokens
                (WsLoop.ai s)) as Hreq.
  cbv zeta in Hreq.
  destruct (GroqClient.ask_groq_json (WsLoop.prompt data code_preview)
              GroqClient.default_model GroqClient.default_max_tokens
              (WsLoop.ai s)) as [r ai'].
  cbn [fst snd] in Hreq |- *.
  split; [exact Hreq |].
  destruct r as [e | answer].
  - destruct (is_Exception e) eqn:Hexc.
    + unfold WsLoop.try_send. cbn [fst snd].
      destruct (send_log (WsLoop.error_message ("AI error: " ++ exn_str e))
                  (WsLoop.mkWsSys ai' (WsLoop.sent s))) as [Hai Hsent].
      cbn [WsLoop.ai WsLoop.sent] in Hai, Hsent. rewrite Hai, Hsent.
      repeat split.
    + cbn. repeat split.
  - unfold WsLoop.try_send, WsLoop.send. cbn [WsLoop.ai WsLoop.sent].
    destruct (send_json _ (GroqClient.gworld ai')) as [[[| err] | u] w];
      cbn [fst snd WsLoop.ai WsLoop.sent GroqClient.requested GroqClient.gworld].
    + repeat split.
    + destruct (send_json _ w) as [r2 w2].
      cbn [fst snd WsLoop.ai WsLoop.sent GroqClient.requested].
      rewrite <- app_assoc. repeat split.
    + repeat split.
Qed.

End EndpointFacts.

(** ** The further facts at concrete requests *)

Section MoreOnPosix.

#[local] Existing Instance Scripted.posix.
#[local] Existing Instance PurePosixPath.flavour.

Lemma run_command_completed_witness :
  let s := Scripted.start Demo2.python_prints in
  let cmd := CmdList ["/usr/bin/python3"; "/tmp/w/main.py"] in
  let req := mkPopen cmd (Some "/tmp/w") 30 false in
  let proc := mkCompleted (Some "hi") (Some "") 0 in
  let w' := mkScripted [("python3", "/usr/bin/python3")] [] [] 0 in
  (popen_request cmd (Some "/tmp/w") 30 = Some req
   /\ subprocess_run req (world s) = (inr proc, w'))
  /\ run_command cmd (Some "/tmp/w") 30 s =
       (inr (mkResult "hi" "" 0 "/usr/bin/python3 /tmp/w/main.py"),
        mkSys w' [req]).
Proof.
  intros s cmd req proc w'. split.
  - split; reflexivity.
  - exact (run_command_completed cmd (Some "/tmp/w") 30 s req proc w'
             eq_refl eq_refl).
Defined.

Lemma run_command_untokenizable_witness :
  let s := Scripted.start Demo.bare in
  (os_name <> "nt" /\ shlex.split "echo 'oops" = inl "No closing quotation")
  /\ run_command (CmdStr "echo 'oops") None 30 s =
       (inr (mkResult "" "RunnerError: No closing quotation" 125 "echo 'oops"), s).
Proof.
  intros s. split.
  - split; [discriminate | reflexivity].
  - apply (run_command_untokenizable "echo 'oops" None 30 s
             "No closing quotation"); [discriminate | reflexivity].
Defined.

Lemma dispatcher_escape_witness :
  let s := Scripted.start Demo2.interrupted in
  let s' :=
    mkSys (mkScripted [("python3", "/usr/bin/python3")] [] [] 0)
      [mkPopen (CmdList ["/usr/bin/python3"; "/tmp/w/main.py"])
         (Some "/tmp/w") 30 false] in
  run_linter_for_language "/tmp/w/main.py" (Some "python") 30 s
    = (inl KeyboardInterrupt, s')
  /\ is_Exception KeyboardInterrupt = false.
Proof.
  intros s s'. split.
  - reflexivity.
  - apply (dispatcher_escape "/tmp/w/main.py" (Some "python") 30 s
             KeyboardInterrupt s').
    reflexivity.
Defined.

Lemma java_runtime_missing_witness :
  let s := Scripted.start Demo2.javac_only in
  let compile :=
    mkPopen (CmdList ["javac"; "/tmp/w/Main.java"]) (Some "/tmp/w") 30 false in
  let rc := mkResult "" "" 0 "javac /tmp/w/Main.java" in
  let s1 := mkSys (mkScripted [("javac", "/usr/bin/javac")] [] [] 0) [compile] in
  (normalize (Some "Java") = "java"
   /\ available (world s) "javac" = true
   /\ returncode rc = 0
   /\ available (world s1) "java" = false)
  /\ (run_linter_for_language "/tmp/w/Main.java" (Some "Java") 30 s =
        (inr (mkResult "" "Compiled but `java` runtime not found on PATH." 125
                "javac /tmp/w/Main.java"), s1)
      /\ spawned_by (run_linter_for_language "/tmp/w/Main.java" (Some "Java") 30) s
         = [compile]).
Proof.
  intros s compile rc s1. split.
  - repeat split.
  - exact (java_runtime_missing "/tmp/w/Main.java" (Some "Java") 30 s rc s1
             eq_refl eq_refl eq_refl eq_refl eq_refl).
Defined.

Lemma dispatch_by_normal_form_witness :
  let s := Scripted.start Demo2.python_prints in
  (normalize (Some "  PYTHON ") = normalize (Some "python")
   /\ PyStr.mem (normalize (Some "  PYTHON ")) supported_keys = true)
  /\ run_linter_for_language "/tmp/w/main.py" (Some "  PYTHON ") 30 s =
     run_linter_for_language "/tmp/w/main.py" (Some "python") 30 s.
Proof.
  intros s. split.
  - split; reflexivity.
  - apply (dispatch_by_normal_form "/tmp/w/main.py" (Some "  PYTHON ")
             (Some "python") 30 s); reflexivity.
Defined.

Lemma c_family_compile_command_witness :
  let s := Scripted.start Demo.gxx_accepts in
  let compile :=
    mkPopen (CmdList ["g++"; "/tmp/w/main.cpp"; "-o"; "/tmp/w/a_out_exec";
                      "-std=c++17"]) (Some "/tmp/w") 30 false in
  let run := mkPopen (CmdList ["/tmp/w/a_out_exec"]) (Some "/tmp/w") 30 false in
  (PyStr.mem (normalize (Some "c++")) ["c"; "cpp"; "c++"] = true
   /\ spawned_by (run_linter_for_language "/tmp/w/main.cpp" (Some "c++") 30) s
      = [compile; run])
  /\ exists compiler,
      In compiler ["g++"; "clang++"]
      /\ popen_args compile =
           CmdList [compiler; "/tmp/w/main.cpp"; "-o"; "/tmp/w/a_out_exec";
                    "-std=c++17"].
Proof.
  intros s compile run. split.
  - split; reflexivity.
  - exact (c_family_compile_command "/tmp/w/main.cpp" (Some "c++") 30 s
             compile [run] eq_refl eq_refl).
Defined.

Lemma python_interpreter_preferred_witness :
  let s := Scripted.start Demo2.python_prints in
  let cmd := CmdList ["/usr/bin/python3"; "/tmp/w/main.py"] in
  (PyStr.mem (normalize (Some "py")) ["python"; "py"] = true
   /\ PyStr.truthy (python_in (world s)) = true)
  /\ (run_linter_for_language "/tmp/w/main.py" (Some "py") 30 s =
        run_command cmd (Some "/tmp/w") 30 s
      /\ spawned_by (run_linter_for_language "/tmp/w/main.py" (Some "py") 30) s =
           [mkPopen cmd (Some "/tmp/w") 30 false]).
Proof.
  intros s cmd. split.
  - split; reflexivity.
  - exact (python_interpreter_preferred "/tmp/w/main.py" (Some "py") 30 s
             eq_refl eq_refl).
Defined.

Lemma reported_command_reads_back_witness :
  let s := Scripted.start Demo.bare in
  let argv := ["echo"; "it's"; ""; "a b"; "back\slash"] in
  os_name <> "nt"
  /\ (shlex.split (PyStr.join " " (map shlex.quote argv)) = inr argv
      /\ run_command (CmdStr (reconstructed (CmdList argv))) None 30 s =
           run_command (CmdList argv) None 30 s).
Proof.
  intros s argv. split.
  - discriminate.
  - apply (reported_command_reads_back argv None 30 s). discriminate.
Defined.

End MoreOnPosix.

Section ApiOnPosix.

#[local] Existing Instance Scripted.posix.
#[local] Existing Instance PurePosixPath.flavour.

Lemma run_code_cleans_up_witness :
  let fs := Scripted.posix_fs in
  let s := Scripted.start Demo2.python_prints in
  let req := mkRunRequest "Python" None "print('hi')" in
  let w := mkScripted [("python3", "/usr/bin/python3")]
             [Demo.completed "hi" "" 0] [] 1 in
  TemporaryDirectory_enter (world s) = (inr "/tmp/tmp0", w)
  /\ exists w_last,
      world (snd (run_code req s)) = snd (TemporaryDirectory_exit "/tmp/tmp0" w_last)
      /\ forall e, fst (TemporaryDirectory_exit "/tmp/tmp0" w_last) = inl e ->
                   fst (run_code req s) = inl e.
Proof.
  intros fs s req w. split.
  - reflexivity.
  - exact (run_code_cleans_up req s "/tmp/tmp0" w eq_refl).
Defined.

Lemma run_code_write_failure_witness :
  let fs := ReadOnly.posix_fs in
  let s := Scripted.start Demo2.python_prints in
  let req := mkRunRequest "python" (Some "") "print('hi')" in
  let w := mkScripted [("python3", "/usr/bin/python3")]
             [Demo.completed "hi" "" 0] [] 1 in
  (TemporaryDirectory_enter (world s) = (inr "/tmp/tmp0", w)
   /\ source_name req = "main.py"
   /\ write_text (os_path_join "/tmp/tmp0" (source_name req)) (code req) w =
        (inl (PermissionError "[Errno 13] Permission denied"), w))
  /\ (spawned_by (run_code req) s = []
      /\ exists e', fst (run_code req s) = inl e').
Proof.
  intros fs s req w. split.
  - repeat split.
  - exact (run_code_write_failure req s "/tmp/tmp0" w
             (PermissionError "[Errno 13] Permission denied") w eq_refl eq_refl).
Defined.

Lemma run_code_response_witness :
  let fs := Scripted.posix_fs in
  let s := Scripted.start Demo2.python_prints in
  let req := mkRunRequest "Python" None "print('hi')" in
  let on_path := [("python3", "/usr/bin/python3")] in
  let reply := [Demo.completed "hi" "" 0] in
  let source := [("/tmp/tmp0/main.py", "print('hi')")] in
  let request :=
    mkPopen (CmdList ["/usr/bin/python3"; "/tmp/tmp0/main.py"])
      (Some "/tmp/tmp0") 30 false in
  let resp :=
    mkRunResponse "hi" "" 0 "/usr/bin/python3 /tmp/tmp0/main.py"
      "/tmp/tmp0/main.py" in
  let s' := mkSys (mkScripted on_path [] [] 1) [request] in
  (exists td w w1 res s1 w2,
      let file_path := os_path_join td (source_name req) in
      TemporaryDirectory_enter (world s) = (inr td, w)
      /\ write_text file_path (code req) w = (inr tt, w1)
      /\ run_linter_for_language file_path
           (Some (PyStr.lower (language req))) 30 (mkSys w1 (spawned s))
         = (inr res, s1)
      /\ TemporaryDirectory_exit td (world s1) = (inr tt, w2)
      /\ resp = mkRunResponse (stdout res) (stderr res) (returncode res)
                  (executed_cmd res) file_path
      /\ s' = mkSys w2 (spawned s1))
  /\ run_code req s = (inr resp, s').
Proof.
  intros fs s req on_path reply source request resp s'.
  assert (Hparts :
    exists td w w1 res s1 w2,
      let file_path := os_path_join td (source_name req) in
      TemporaryDirectory_enter (world s) = (inr td, w)
      /\ write_text file_path (code req) w = (inr tt, w1)
      /\ run_linter_for_language file_path
           (Some (PyStr.lower (language req))) 30 (mkSys w1 (spawned s))
         = (inr res, s1)
      /\ TemporaryDirectory_exit td (world s1) = (inr tt, w2)
      /\ resp = mkRunResponse (stdout res) (stderr res) (returncode res)
                  (executed_cmd res) file_path
      /\ s' = mkSys w2 (spawned s1)).
  { exists "/tmp/tmp0",
      (mkScripted on_path reply [] 1 : @World Scripted.posix),
      (mkScripted on_path reply source 1 : @World Scripted.posix),
      (mkResult "hi" "" 0 "/usr/bin/python3 /tmp/tmp0/main.py"),
      (@mkSys Scripted.posix (mkScripted on_path [] source 1) [request]),
      (mkScripted on_path [] [] 1 : @World Scripted.posix).
    cbv zeta. repeat split. }
  split; [exact Hparts |].
  exact (proj2 (run_code_response req s resp s') Hparts).
Defined.

End ApiOnPosix.

Section OnDemoHosts.

#[local] Existing Instance DemoHosts.json.
#[local] Existing Instance DemoHosts.history.
#[local] Existing Instance DemoHosts.groq.
#[local] Existing Instance DemoHosts.socket.

Lemma normalized_has_schema_witness :
  In "patch" Ws.schema_keys
  /\ exists d text,
      Ws._normalize_ai_response (PStr DemoHosts.answer_text) = PDict d
      /\ Ws.get d "patch" = Some (PStr text).
Proof.
  split.
  - simpl. auto.
  - apply (normalized_has_schema (PStr DemoHosts.answer_text) "patch").
    simpl. auto.
Defined.

Lemma normalize_dict_keeps_extras_witness :
  let d := [("summary", PInt 7); ("confidence", PInt 3)] in
  PyStr.mem "confidence" Ws.schema_keys = false
  /\ exists d',
      Ws._normalize_ai_response (PDict d) = PDict d'
      /\ Ws.get d' "confidence" = Ws.get d "confidence"
      /\ forall k, In k Ws.schema_keys ->
           Ws.get d' k = Some (PStr (match Ws.get d k with
                                     | Some (PStr text) => text
                                     | _ => ""
                                     end)).
Proof.
  intros d. split.
  - reflexivity.
  - exact (normalize_dict_keeps_extras d "confidence" eq_refl).
Defined.

Lemma normalize_non_object_json_witness :
  (json_loads "[1, 2]" = Some (PList [PInt 1; PInt 2])
   /\ forall d, PList [PInt 1; PInt 2] <> PDict d)
  /\ Ws._normalize_ai_response (PStr "[1, 2]") =
       PDict [("summary", PStr ""); ("root_cause", PStr "[1, 2]");
              ("fix", PStr ""); ("patch", PStr "")].
Proof.
  split.
  - split; [reflexivity | discriminate].
  - apply (normalize_non_object_json "[1, 2]" (PList [PInt 1; PInt 2]));
      [reflexivity | discriminate].
Defined.



Lemma save_history_not_a_list_witness :
  let entry := PInt 3 in
  let st : Store := Some "{}" in
  (history_exists st = true
   /\ history_read_text st = inr "{}"
   /\ json_loads "{}" = Some (PDict [])
   /\ forall items, PDict [] <> PList items)
  /\ Db.save_history entry st =
       (inl (OtherException "'dict' object has no attribute 'append'"), st).
Proof.
  intros entry st. split.
  - repeat split. discriminate.
  - apply (save_history_not_a_list entry st "{}" (PDict []));
      try reflexivity. discriminate.
Defined.

Lemma extract_message_content_witness :
  let choice := PObject "Choice"
                  [("message", PDict [("content", PStr "{}")]);
                   ("text", PStr "ignored")] in
  let attrs := [("choices", PList [choice]); ("text", PStr "ignored too")] in
  (Ws.get attrs "choices" = Some (PList [choice])
   /\ GroqClient.first_item (PList [choice]) = Some choice
   /\ GroqClient.getattr choice "message" = Some (PDict [("content", PStr "{}")])
   /\ GroqVocabulary.message_content (PDict [("content", PStr "{}")])
      = Some (PStr "{}")
   /\ GroqClient.truthy (PStr "{}") = true)
  /\ GroqClient._extract_content_from_resp (PObject "ChatCompletion" attrs)
     = PStr "{}".
Proof.
  intros choice attrs. split.
  - repeat split.
  - exact (extract_message_content "ChatCompletion" attrs (PList [choice]) choice
             (PDict [("content", PStr "{}")]) (PStr "{}")
             eq_refl eq_refl eq_refl eq_refl eq_refl).
Defined.

Lemma diagnose_turn_witness :
  let s := WsLoop.mkWsSys (GroqClient.mkGSys DemoHosts.answering []) [] in
  let data := [("type", PStr "diagnose"); ("code", PStr "print(1)")] in
  let request :=
    mkChatRequest GroqClient.default_model
      [("system", GroqClient.SYSTEM_JSON_INSTRUCTION);
       ("user", WsLoop.prompt data (PStr "print(1)"))]
      GroqClient.default_max_tokens in
  let out := WsLoop.handle_text DemoHosts.diagnose_text s in
  let diagnosis :=
    PDict [("type", PStr "diagnosis");
           ("diagnosis",
            PDict [("summary", PStr "off by one"); ("root_cause", PStr "");
                   ("fix", PStr ""); ("patch", PStr "");
                   ("confidence", PInt 3)])] in
  (json_loads DemoHosts.diagnose_text = Some (PDict data)
   /\ WsLoop.type_is data "diagnose" = true)
  /\ ([request] = GroqClient.requested (WsLoop.ai s)
      \/ [request] = (GroqClient.requested (WsLoop.ai s) ++ [request])%list)
  /\ GroqClient.requested (WsLoop.ai (snd out)) = [request]
  /\ fst out = Continue
  /\ WsLoop.sent (snd out) = [diagnosis].
Proof.
  intros s data request out diagnosis. split.
  - repeat split.
  - exact (diagnose_turn DemoHosts.diagnose_text data s eq_refl eq_refl).
Defined.

Lemma diagnose_outcomes_witness :
  let req := mkDiagnoseRequest (Some "a.py") (Some "python") (Some "print(1)")
               None None None in
  let request :=
    mkChatRequest GroqClient.default_model
      [("system", GroqClient.SYSTEM_JSON_INSTRUCTION);
       ("user", Diagnose.prompt req)]
      GroqClient.default_max_tokens in
  let answers := GroqClient.mkGSys DemoHosts.answering [] in
  let silent := GroqClient.mkGSys (DemoHosts.mkAiWorld (Some "gsk_demo") []) [] in
  (GroqClient.create_client answers = inr "gsk_demo"
   /\ GroqClient.create_client silent = inr "gsk_demo")
  /\ Diagnose.diagnose req answers =
       (Responded (PDict [("diagnosis", PDict DemoHosts.answer_dict)]),
        GroqClient.mkGSys (DemoHosts.mkAiWorld (Some "gsk_demo") []) [request])
  /\ Diagnose.diagnose req silent =
       (HTTPException 500 "Groq API error: Connection error.",
        GroqClient.mkGSys (DemoHosts.mkAiWorld (Some "gsk_demo") []) [request]).
Proof.
  intros req request answers silent. split; [| split].
  - split; reflexivity.
  - exact (proj1 (diagnose_outcomes req answers) "gsk_demo" eq_refl).
  - exact (proj1 (diagnose_outcomes req silent) "gsk_demo" eq_refl).
Defined.

End OnDemoHosts.
